(** * gab-astro-compress: the compression cache and the build pipeline

    A shallow embedding of [src/CompressionCache.ts] (the cache manager),
    [src/defaultConfig.ts] and [src/index.ts] (the integration: option
    merging, [getUsedConfig], [processFile] and the two build hooks),
    followed by the properties of the specification that concern them.

    Conventions of the embedding:
    - paths, hashes, extensions and settings keys are [string]s, one
      character per UTF-16 code unit (codes below 256);
    - a [Buffer] is a [string] read as a sequence of bytes, so that
      [String.length] is the byte length;
    - text produced by a minifier is a [jsstring], a list of UTF-16 code
      units: its [length] is what JavaScript's [.length] returns, and
      [utf8_encode] gives the bytes [fs.writeFileSync] puts on disk;
    - JavaScript numbers are integers of [Z];
    - the file system is a finite map from paths to file contents together
      with a set of directories; reading a missing file throws, while
      writing and [mkdirSync] succeed (no permissions, no full disk), and
      [unlink] takes effect at once;
    - the manifest's [entries] are a finite map looked up by own keys
      (original paths are absolute paths);
    - the digest, the JSON codec of the manifest file and the compression
      libraries are parameters;
    - the tasks the hook starts for the candidates are run one after the
      other in the order of the candidate list, which stands for what
      [traverseDirectory] returned. *)

From Stdlib Require Import ZArith List Ascii String DecimalString Bool Lia.
From stdpp Require Import base option list strings gmap fin_maps.

Local Open Scope string_scope.
Local Open Scope Z_scope.
Local Set Warnings "-register-all".

(** ** Strings *)

Module Str.

Definition dquote : ascii := ascii_of_nat 34.
Definition backslash : ascii := ascii_of_nat 92.
Definition dot : ascii := ascii_of_nat 46.

(** [String.prototype.toLowerCase] on the characters A to Z. *)
Definition lower_ascii (c : ascii) : ascii :=
  let n := nat_of_ascii c in
  if ((65 <=? n) && (n <=? 90))%nat then ascii_of_nat (n + 32) else c.

Fixpoint toLowerCase (s : string) : string :=
  match s with
  | EmptyString => EmptyString
  | String c r => String (lower_ascii c) (toLowerCase r)
  end.

(** [s.split(sep)]: the segments between the occurrences of [sep];
    [seg] is the segment read so far. *)
Fixpoint split_from (sep : ascii) (seg : string) (s : string) : list string :=
  match s with
  | EmptyString => [seg]
  | String c r =>
      if Ascii.eqb c sep then seg :: split_from sep EmptyString r
      else split_from sep (seg ++ String c EmptyString) r
  end.

Definition split (sep : ascii) (s : string) : list string :=
  split_from sep EmptyString s.

(** [arr.pop()] of a freshly built array: its last element, [None]
    (undefined) when the array is empty. *)
Definition pop (l : list string) : option string := last l.

(** [/suf$/.test(s)] for a literal [suf]. *)
Definition endsWith (s suf : string) : bool :=
  let n := String.length s in
  let m := String.length suf in
  (m <=? n)%nat && String.eqb (substring (n - m) m s) suf.

Fixpoint join (sep : string) (l : list string) : string :=
  match l with
  | [] => EmptyString
  | [x] => x
  | x :: r => x ++ sep ++ join sep r
  end.

(** [path.join(a, b)] for two already normalised segments. *)
Definition path_join (a b : string) : string :=
  a ++ "/" ++ b.

End Str.

(** ** JavaScript values held by the settings *)

Inductive jsval : Type :=
  | JUndefined
  | JNull
  | JBool (b : bool)
  | JNum (z : Z)
  | JStr (s : string)
  | JFun
  | JArr (l : list jsval)
  | JObj (props : list (string * jsval)).

(** An object is the list of its own enumerable properties in insertion
    order, which is the order [JSON.stringify] and the spread syntax
    follow (keys that are array indices, which come first in JavaScript,
    do not occur among the options). *)
Definition props := list (string * jsval).

Module Js.

Fixpoint get_prop (o : props) (k : string) : option jsval :=
  match o with
  | [] => None
  | (k', v) :: r => if String.eqb k' k then Some v else get_prop r k
  end.

(** [o[k] = v] on an ordinary object: an existing key keeps its place. *)
Fixpoint set_prop (o : props) (k : string) (v : jsval) : props :=
  match o with
  | [] => [(k, v)]
  | (k', v') :: r =>
      if String.eqb k' k then (k', v) :: r else (k', v') :: set_prop r k v
  end.

(** [{ ...o, ...src }] continued: copy the own properties of [src], an
    object or undefined. *)
Definition spread (o : props) (src : jsval) : props :=
  match src with
  | JObj l => fold_left (fun acc kv => set_prop acc (fst kv) (snd kv)) l o
  | _ => o
  end.

(** [v.k] (and [v?.k]): reading a property of a value that is not an
    object with that own property gives undefined. *)
Definition get (v : jsval) (k : string) : jsval :=
  match v with
  | JObj l => default JUndefined (get_prop l k)
  | _ => JUndefined
  end.

Definition truthy (v : jsval) : bool :=
  match v with
  | JUndefined | JNull => false
  | JBool b => b
  | JNum z => negb (z =? 0)
  | JStr s => negb (String.eqb s EmptyString)
  | JFun | JArr _ | JObj _ => true
  end.

Definition hex_digit (n : nat) : ascii :=
  ascii_of_nat (if (n <? 10)%nat then 48 + n else 87 + n).

(** The escape [JSON.stringify] writes for one character of a string. *)
Definition escape_char (c : ascii) : string :=
  let n := nat_of_ascii c in
  if Ascii.eqb c Str.dquote then String Str.backslash (String Str.dquote EmptyString)
  else if Ascii.eqb c Str.backslash then String Str.backslash (String Str.backslash EmptyString)
  else if (n =? 8)%nat then String Str.backslash "b"
  else if (n =? 9)%nat then String Str.backslash "t"
  else if (n =? 10)%nat then String Str.backslash "n"
  else if (n =? 12)%nat then String Str.backslash "f"
  else if (n =? 13)%nat then String Str.backslash "r"
  else if (n <? 32)%nat then
    String Str.backslash
      ("u00" ++ String (hex_digit (n / 16)) (String (hex_digit (n mod 16)) EmptyString))
  else String c EmptyString.

Fixpoint escape (s : string) : string :=
  match s with
  | EmptyString => EmptyString
  | String c r => escape_char c ++ escape r
  end.

Definition quote (s : string) : string :=
  String Str.dquote (escape s ++ String Str.dquote EmptyString).

Definition number_to_string (z : Z) : string :=
  NilZero.string_of_int (Z.to_int z).

(** [JSON.stringify(v)]; [None] is the result undefined. A property
    whose value serializes to undefined is left out of its object, and
    such an element of an array is written null. *)
Fixpoint stringify (v : jsval) : option string :=
  match v with
  | JUndefined | JFun => None
  | JNull => Some "null"
  | JBool true => Some "true"
  | JBool false => Some "false"
  | JNum z => Some (number_to_string z)
  | JStr s => Some (quote s)
  | JArr l =>
      let items :=
        (fix go (l : list jsval) : list string :=
           match l with
           | [] => []
           | x :: r => default "null" (stringify x) :: go r
           end) l in
      Some ("[" ++ Str.join "," items ++ "]")
  | JObj l =>
      let members :=
        (fix go (l : list (string * jsval)) : list string :=
           match l with
           | [] => []
           | (k, x) :: r =>
               match stringify x with
               | Some s => (quote k ++ ":" ++ s) :: go r
               | None => go r
               end
           end) l in
      Some ("{" ++ Str.join "," members ++ "}")
  end.

End Js.

(** ** Buffers and text *)

(** The bytes of a file. *)
Definition Buffer := string.

(** A JavaScript string as its UTF-16 code units. *)
Definition jsstring := list N.

Module Text.

Local Open Scope N_scope.

Definition byte (n : N) : ascii := ascii_of_N (n mod 256).

Definition is_high_surrogate (u : N) : bool := (55296 <=? u) && (u <? 56320).
Definition is_low_surrogate (u : N) : bool := (56320 <=? u) && (u <? 57344).

(** The UTF-8 encoding of the code point [c]. *)
Definition encode_code_point (c : N) : string :=
  if c <? 128 then String (byte c) EmptyString
  else if c <? 2048 then
    String (byte (192 + c / 64)) (String (byte (128 + c mod 64)) EmptyString)
  else if c <? 65536 then
    String (byte (224 + c / 4096))
      (String (byte (128 + (c / 64) mod 64))
         (String (byte (128 + c mod 64)) EmptyString))
  else
    String (byte (240 + c / 262144))
      (String (byte (128 + (c / 4096) mod 64))
         (String (byte (128 + (c / 64) mod 64))
            (String (byte (128 + c mod 64)) EmptyString))).

(** What [fs.writeFileSync(path, text)] writes: the UTF-8 encoding of
    the text, a surrogate pair making one code point and a lone
    surrogate becoming U+FFFD. *)
Fixpoint utf8_encode (s : jsstring) : Buffer :=
  match s with
  | [] => EmptyString
  | u :: r =>
      if is_high_surrogate u then
        match r with
        | v :: r' =>
            if is_low_surrogate v then
              (encode_code_point (65536 + (u - 55296) * 1024 + (v - 56320))
               ++ utf8_encode r')%string
            else (encode_code_point 65533 ++ utf8_encode r)%string
        | [] => encode_code_point 65533
        end
      else if is_low_surrogate u then
        (encode_code_point 65533 ++ utf8_encode r)%string
      else (encode_code_point u ++ utf8_encode r)%string
  end.

(** The code units of a text of characters below 256. *)
Fixpoint of_string (s : string) : jsstring :=
  match s with
  | EmptyString => []
  | String c r => N_of_ascii c :: of_string r
  end.

End Text.

(** What a compressor hands to [handleCompressedResult]: [string | Buffer]. *)
Inductive Content : Type :=
  | CBuffer (b : Buffer)
  | CString (s : jsstring).

(** [compressedContent.length], on either side of the conditional. *)
Definition content_length (c : Content) : Z :=
  match c with
  | CBuffer b => Z.of_nat (String.length b)
  | CString s => Z.of_nat (List.length s)
  end.

(** The bytes [fs.writeFileSync(filePath, compressedContent)] stores. *)
Definition content_bytes (c : Content) : Buffer :=
  match c with
  | CBuffer b => b
  | CString s => Text.utf8_encode s
  end.

(** ** defaultConfig.ts *)

Definition defaultCacheDir : string := "node_modules/.astro/.gab-astro-compress".

Definition defaultConfig : props :=
  [ ("cache", JObj [("enabled", JBool true); ("cacheDir", JStr defaultCacheDir)]);
    ("png", JObj [("compressionLevel", JNum 9); ("palette", JBool true)]);
    ("jpeg", JObj [("mozjpeg", JBool true); ("trellisQuantisation", JBool true);
                   ("overshootDeringing", JBool true); ("optimizeScans", JBool true)]);
    ("jxl", JObj [("effort", JNum 9)]);
    ("webp", JObj [("effort", JNum 6)]);
    ("avif", JObj [("effort", JNum 9)]);
    ("heif", JObj [("effort", JNum 9)]);
    ("tiff", JObj []);
    ("gif", JObj [("effort", JNum 6)]);
    ("html", JObj [("collapseWhitespace", JBool true); ("removeComments", JBool true);
                   ("minifyCSS", JBool true); ("minifyJS", JBool true);
                   ("continueOnParseError", JBool true)]);
    ("js", JObj [("compress", JBool true); ("mangle", JBool true)]);
    ("svg", JObj [("multipass", JBool true)]);
    ("css", JObj []) ].

(** ** index.ts: the merged options and the format resolver *)

Definition configAliases : list (string * list string) :=
  [ ("js", ["mjs"; "cjs"]); ("jpeg", ["jpg"]); ("tiff", ["tif"]) ].

Fixpoint getAliasForExtension_in (table : list (string * list string))
    (extension : string) : option string :=
  match table with
  | [] => None
  | (key, aliases) :: r =>
      if existsb (String.eqb extension) aliases then Some key
      else getAliasForExtension_in r extension
  end.

Definition getAliasForExtension (extension : string) : option string :=
  getAliasForExtension_in configAliases extension.

(** The formats whose options are merged key by key with the defaults. *)
Definition mergedFormats : list string :=
  ["png"; "jpeg"; "webp"; "avif"; "heif"; "html"; "js"; "svg"].

(** [compressionConfig]: [{ ...defaultConfig, ...options, png: {
    ...defaultConfig.png, ...options.png }, ... }]. *)
Definition compressionConfig (options : props) : props :=
  fold_left
    (fun acc k =>
       Js.set_prop acc k
         (JObj (Js.spread (Js.spread [] (Js.get (JObj defaultConfig) k))
                  (Js.get (JObj options) k))))
    mergedFormats
    (Js.spread (Js.spread [] (JObj defaultConfig)) (JObj options)).

(** The names [k in compressionConfig] finds on [Object.prototype] once
    [k] is lower case. *)
Definition inherited_lower_keys : list string := ["constructor"; "__proto__"].

(** [k in compressionConfig]. *)
Definition in_config (cfg : props) (k : string) : bool :=
  bool_decide (is_Some (Js.get_prop cfg k)) || existsb (String.eqb k) inherited_lower_keys.

(** [compressionConfig[k]]: an own property, else what the prototype
    holds: the function [Object] under constructor and the empty
    prototype object under __proto__. *)
Definition config_at (cfg : props) (k : string) : jsval :=
  match Js.get_prop cfg k with
  | Some v => v
  | None =>
      if String.eqb k "constructor" then JFun
      else if String.eqb k "__proto__" then JObj []
      else JUndefined
  end.

(** A [UsedFormatConfig]: [JNull] or the object [{ config, format }]. *)
Definition UsedFormatConfig := jsval.

Definition getUsedConfig (cfg : props) (filePath : string) : UsedFormatConfig :=
  let fileExtension :=
    default EmptyString (Str.pop (Str.split Str.dot (Str.toLowerCase filePath))) in
  let configKey :=
    if in_config cfg fileExtension then Some fileExtension
    else getAliasForExtension fileExtension in
  match configKey with
  | None => JNull
  | Some k =>
      if String.eqb k EmptyString then JNull
      else JObj [("config", config_at cfg k); ("format", JStr k)]
  end.

(** ** The file system and exceptions *)

Inductive JsError : Type :=
  | ENOENT (path : string)
  | SyntaxError
  | TypeError
  | Thrown (message : string).

Inductive result (A : Type) : Type :=
  | Ok (a : A)
  | Throw (e : JsError).

Arguments Ok {A} a.
Arguments Throw {A} e.

Definition bind {A B : Type} (r : result A) (k : A -> result B) : result B :=
  match r with
  | Ok a => k a
  | Throw e => Throw e
  end.

(** [try { body } catch { handler }]. *)
Definition try_catch {A : Type} (body : result A) (handler : JsError -> A) : A :=
  match body with
  | Ok a => a
  | Throw e => handler e
  end.

Notation "'let!' x ':=' r 'in' k" := (bind r (fun x => k))
  (at level 10, x pattern, r at level 100, k at level 200).

Record World : Type := mkWorld {
  files : gmap string Buffer;
  dirs : gset string;
  clock : Z
}.

Module Fs.

Definition readFileSync (w : World) (p : string) : result Buffer :=
  match files w !! p with
  | Some b => Ok b
  | None => Throw (ENOENT p)
  end.

Definition writeFileSync (w : World) (p : string) (b : Buffer) : World :=
  mkWorld (<[p := b]> (files w)) (dirs w) (clock w).

(** [mkdirSync(d, { recursive: true })]; the missing ancestors it
    creates as well are not tracked. *)
Definition mkdirSync (w : World) (d : string) : World :=
  mkWorld (files w) ({[d]} ∪ dirs w) (clock w).

(** [unlink(p, callback)]: the file is removed if it is there; a failure
    only reaches the callback, which logs it. *)
Definition unlink (w : World) (p : string) : World :=
  mkWorld (delete p (files w)) (dirs w) (clock w).

(** Whether [stat(p)] resolves. *)
Definition exists_path (w : World) (p : string) : bool :=
  bool_decide (is_Some (files w !! p)) || bool_decide (p ∈ dirs w).

(** [statSync(p).size] of a regular file. *)
Definition size (b : Buffer) : Z := Z.of_nat (String.length b).

End Fs.

(** ** CompressionCache.ts *)

Record CacheEntry : Type := mkEntry {
  sourceHash : string;
  compressedPath : string;
  timestamp : Z;
  settings : UsedFormatConfig;
  size_original : Z;
  size_compressed : Z
}.

Record CompressionCache : Type := mkCache {
  version : string;
  entries : gmap string CacheEntry
}.

Record CompressionCacheManagerImpl : Type := mkManager {
  cacheDir : string;
  manifest : CompressionCache
}.

(** The constructor. *)
Definition newManager (astroDir : string) : CompressionCacheManagerImpl :=
  mkManager astroDir (mkCache "1" ∅).

Definition with_entries (m : CompressionCacheManagerImpl)
    (e : gmap string CacheEntry) : CompressionCacheManagerImpl :=
  mkManager (cacheDir m) (mkCache (version (manifest m)) e).

(** [JSON.stringify(a) !== JSON.stringify(b)]. *)
Definition settings_mismatch (a b : UsedFormatConfig) : bool :=
  negb (bool_decide (Js.stringify a = Js.stringify b)).

(** The property key an argument is turned into: a missing argument is
    undefined, which reads the key named undefined. *)
Definition property_key (arg : option string) : string :=
  default "undefined" arg.

Section Cache.

(** [JSON.parse] of the text of a manifest file ([None]: it throws; a
    text that parses to a value of another shape than a manifest is not
    considered) and [JSON.stringify(manifest, null, 2)]. *)
Variable JSON_parse : Buffer -> option CompressionCache.
Variable JSON_stringify : CompressionCache -> Buffer.

Definition manifestPath (m : CompressionCacheManagerImpl) : string :=
  Str.path_join (cacheDir m) "manifest.json".

Definition loadManifest (w : World) (m : CompressionCacheManagerImpl)
    : result CompressionCacheManagerImpl :=
  let! content := Fs.readFileSync w (manifestPath m) in
  match JSON_parse content with
  | Some c => Ok (mkManager (cacheDir m) c)
  | None => Throw SyntaxError
  end.

Definition saveManifest (w : World) (m : CompressionCacheManagerImpl) : World :=
  Fs.writeFileSync w (manifestPath m) (JSON_stringify (manifest m)).

Definition initialize (w : World) (m : CompressionCacheManagerImpl)
    : result (World * CompressionCacheManagerImpl) :=
  let w1 := Fs.mkdirSync w (cacheDir m) in
  Ok (try_catch
        (let! m' := loadManifest w1 m in Ok (w1, m'))
        (fun _ => (saveManifest w1 m, m))).

Definition invalidateCache (w : World) (m : CompressionCacheManagerImpl)
    (originalPath : option string)
    : result (World * CompressionCacheManagerImpl) :=
  let key := property_key originalPath in
  match entries (manifest m) !! key with
  | None => Throw TypeError
  | Some e =>
      Ok (Fs.unlink w (compressedPath e),
          with_entries m (delete key (entries (manifest m))))
  end.

(** The call [this.invalidateCache(originalPath)] inside
    [getCachedFile]: its promise is dropped. *)
Definition invalidate_and_forget (w : World) (m : CompressionCacheManagerImpl)
    (originalPath : string) : World * CompressionCacheManagerImpl :=
  try_catch (invalidateCache w m (Some originalPath)) (fun _ => (w, m)).

Definition getCachedFile (w : World) (m : CompressionCacheManagerImpl)
    (originalPath originalHash : string) (s : UsedFormatConfig)
    : World * CompressionCacheManagerImpl * option CacheEntry :=
  match entries (manifest m) !! originalPath with
  | None => (w, m, None)
  | Some entry =>
      if negb (String.eqb (sourceHash entry) originalHash) then
        (invalidate_and_forget w m originalPath, None)
      else if settings_mismatch (settings entry) s then
        (invalidate_and_forget w m originalPath, None)
      else if Fs.exists_path w (compressedPath entry) then
        (w, m, Some entry)
      else
        (w, with_entries m (delete originalPath (entries (manifest m))), None)
  end.

(** [originalPath.split('.').pop() || ''] *)
Definition cache_extension (originalPath : string) : string :=
  default EmptyString (Str.pop (Str.split Str.dot originalPath)).

Definition cachedFilePath (m : CompressionCacheManagerImpl)
    (originalPath originalHash : string) : string :=
  Str.path_join (cacheDir m) (originalHash ++ "." ++ cache_extension originalPath).

Definition saveToCache (w : World) (m : CompressionCacheManagerImpl)
    (originalPath originalHash : string) (originalLength : Z)
    (compressedContent : Buffer) (s : UsedFormatConfig)
    : World * CompressionCacheManagerImpl :=
  let path := cachedFilePath m originalPath originalHash in
  let w1 := Fs.writeFileSync w path compressedContent in
  let entry :=
    mkEntry originalHash path (clock w1) s originalLength (Fs.size compressedContent) in
  (w1, with_entries m (<[originalPath := entry]> (entries (manifest m)))).

End Cache.

(** ** index.ts: the compressors, [processFile] and the hooks *)

(** What a call into a compression library does: it returns, or it
    throws an error whose [String(error)] is [message]. *)
Inductive Attempt (A : Type) : Type :=
  | Produced (a : A)
  | Threw (message : string).

Arguments Produced {A} a.
Arguments Threw {A} message.

Record Metadata : Type := mkMetadata {
  format : option string;
  compression : jsval
}.

(** The compression libraries, as functions of the options they are given
    and of the bytes of the file (the text minifiers are composed with
    [fs.readFileSync(filePath, 'utf-8')]). A minifier's output text may be
    missing ([None]: undefined). *)
Record Adapters : Type := mkAdapters {
  sharp_metadata : Buffer -> Attempt Metadata;
  sharp_toBuffer : string -> jsval -> Buffer -> Attempt Buffer;
  html_minify : jsval -> Buffer -> Attempt jsstring;
  terser_minify : jsval -> Buffer -> Attempt (option jsstring);
  svgo_optimize : jsval -> Buffer -> Attempt (option jsstring);
  csso_minify : jsval -> Buffer -> Attempt (option jsstring)
}.

Module KnowFailReason.
Definition BiggerSize : string := "compressed size is greater than original size".
Definition UnknowMediaFormat : string := "unknown media format".
Definition NoOutput : string := "compression produced no output".
Definition Skipped : string := "Skipped".
End KnowFailReason.

(** [Result]: [{ processed: true }] or [{ processed: false, reason }]. *)
Inductive Result : Type :=
  | RProcessed
  | RFailed (reason : string).

Record FileResult : Type := mkFileResult {
  outcome : Result;
  originalSize : Z;
  newSize : Z;
  usedConfig : UsedFormatConfig
}.

Definition processed (r : FileResult) : bool :=
  match outcome r with
  | RProcessed => true
  | RFailed _ => false
  end.

Record Totals : Type := mkTotals {
  originalSizeTotal : Z;
  newSizeTotal : Z;
  processedFiles : Z;
  skippedFiles : Z;
  cacheHits : Z
}.

(** The closure of one [GabAstroCompress(options)] call, and the disk. *)
Record State : Type := mkState {
  world : World;
  cacheManager : option CompressionCacheManagerImpl;
  totals : Totals
}.

Definition initialTotals : Totals := mkTotals 0 0 0 0 0.

Definition initialState (w : World) : State := mkState w None initialTotals.

(** The branch of [processFile] a path takes: the first regular
    expression, each of the form [/\.(a|b|...)$/i], that matches it. *)
Inductive Branch : Type :=
  | BImage
  | BHtml
  | BJs
  | BSvg
  | BCss
  | BOther.

Definition has_extension (filePath : string) (exts : list string) : bool :=
  existsb (fun e => Str.endsWith (Str.toLowerCase filePath) ("." ++ e)) exts.

Definition branch_of (filePath : string) : Branch :=
  if has_extension filePath ["jpg"; "jpeg"; "png"; "webp"; "tif"; "tiff"; "avif"; "heif"]
  then BImage
  else if has_extension filePath ["html"; "htm"] then BHtml
  else if has_extension filePath ["js"; "mjs"] then BJs
  else if has_extension filePath ["svg"] then BSvg
  else if has_extension filePath ["css"; "scss"; "sass"; "less"] then BCss
  else BOther.

(** [if (text)] on an optional string. *)
Definition text_truthy (t : option jsstring) : option jsstring :=
  match t with
  | Some (u :: r) => Some (u :: r)
  | _ => None
  end.

Section Pipeline.

Variable JSON_parse : Buffer -> option CompressionCache.
Variable JSON_stringify : CompressionCache -> Buffer.
(** [createHash('sha256').update(b).digest('hex')] *)
Variable sha256 : Buffer -> string.
Variable lib : Adapters.
(** The argument of [GabAstroCompress]. *)
Variable options : props.

Definition cfg : props := compressionConfig options.

(** [compressionConfig.cache?.enabled] *)
Definition cacheEnabled : bool :=
  Js.truthy (Js.get (Js.get (JObj cfg) "cache") "enabled").

Definition handleCompressedResult (st : State) (filePath : string)
    (originalSize : Z) (compressedContent : Content) : State * Z * Result :=
  let contentLength := content_length compressedContent in
  if contentLength <? originalSize then
    let w := Fs.writeFileSync (world st) filePath (content_bytes compressedContent) in
    let newSize := Fs.size (content_bytes compressedContent) in
    let t := totals st in
    (mkState w (cacheManager st)
       (mkTotals (originalSizeTotal t + originalSize) (newSizeTotal t + newSize)
          (processedFiles t) (skippedFiles t) (cacheHits t)),
     newSize, RProcessed)
  else (st, 0, RFailed KnowFailReason.BiggerSize).

(** The five encoders of [formatConfig], keyed by the format sharp
    detected. *)
Definition formatConfig (md : Metadata) (f : string) : option jsval :=
  if String.eqb f "png" then Some (Js.get (JObj cfg) "png")
  else if String.eqb f "jpeg" then Some (Js.get (JObj cfg) "jpeg")
  else if String.eqb f "webp" then Some (Js.get (JObj cfg) "webp")
  else if String.eqb f "avif" then Some (Js.get (JObj cfg) "avif")
  else if String.eqb f "heif" then
    Some (JObj (Js.set_prop (Js.spread [] (Js.get (JObj cfg) "heif"))
                  "compression" (compression md)))
  else None.

(** The body of the [try] block of [processFile]; [Throw] is an
    exception the outer [catch] receives, and the inner [catch]es of the
    JavaScript and SVG branches return early through [Ok]. *)
Definition process_body (st : State) (filePath : string) (bytes : Buffer)
    (originalSize : Z) (used : UsedFormatConfig) : result (State * FileResult) :=
  let finish (r : State * Z * Result) :=
    Ok (fst (fst r), mkFileResult (snd r) originalSize (snd (fst r)) used) in
  let fail (reason : string) :=
    Ok (st, mkFileResult (RFailed reason) originalSize 0 used) in
  let handleError (processType : string) :=
    Ok (st, mkFileResult (RFailed (Str.toLowerCase processType ++ " failed"))
              originalSize originalSize used) in
  match branch_of filePath with
  | BImage =>
      match sharp_metadata lib bytes with
      | Threw e => Throw (Thrown e)
      | Produced md =>
          match format md with
          | Some f =>
              match formatConfig md f with
              | Some c =>
                  match sharp_toBuffer lib f c bytes with
                  | Threw e => Throw (Thrown e)
                  | Produced b =>
                      finish (handleCompressedResult st filePath originalSize (CBuffer b))
                  end
              | None => fail KnowFailReason.UnknowMediaFormat
              end
          | None => fail KnowFailReason.UnknowMediaFormat
          end
      end
  | BHtml =>
      match html_minify lib (Js.get (JObj cfg) "html") bytes with
      | Threw e => Throw (Thrown e)
      | Produced t =>
          finish (handleCompressedResult st filePath originalSize (CString t))
      end
  | BJs =>
      match terser_minify lib (Js.get (JObj cfg) "js") bytes with
      | Threw _ => handleError "JavaScript minification"
      | Produced code =>
          match text_truthy code with
          | Some t => finish (handleCompressedResult st filePath originalSize (CString t))
          | None => fail KnowFailReason.NoOutput
          end
      end
  | BSvg =>
      let svgConfig :=
        JObj (Js.set_prop
                (Js.spread [("path", JStr filePath)] (Js.get (JObj cfg) "svg"))
                "multipass" (JBool true)) in
      match svgo_optimize lib svgConfig bytes with
      | Threw _ => handleError "SVG optimization"
      | Produced data =>
          match text_truthy data with
          | Some t => finish (handleCompressedResult st filePath originalSize (CString t))
          | None => fail KnowFailReason.NoOutput
          end
      end
  | BCss =>
      match csso_minify lib (Js.get (JObj cfg) "css") bytes with
      | Threw e => Throw (Thrown e)
      | Produced css =>
          match text_truthy css with
          | Some t => finish (handleCompressedResult st filePath originalSize (CString t))
          | None => fail KnowFailReason.NoOutput
          end
      end
  | BOther => fail KnowFailReason.Skipped
  end.

(** [String(error)] of what the outer [catch] of [processFile] receives. *)
Definition error_message (e : JsError) : string :=
  match e with
  | ENOENT p => "Error: ENOENT: no such file or directory, open '" ++ p ++ "'"
  | SyntaxError => "SyntaxError"
  | TypeError => "TypeError"
  | Thrown m => m
  end.

(** [fs.statSync(filePath)], before the [try], throws when the file is
    missing; the reads inside the [try] then find the same bytes. *)
Definition processFile (st : State) (filePath : string) : result (State * FileResult) :=
  let! bytes := Fs.readFileSync (world st) filePath in
  let originalSize := Fs.size bytes in
  let used := getUsedConfig cfg filePath in
  Ok (try_catch (process_body st filePath bytes originalSize used)
        (fun e => (st, mkFileResult (RFailed (error_message e)) originalSize 0 used))).

(** ** The hook [astro:config:done] *)

(** [compressionConfig.cache?.cacheDir || defaultCacheDir], as an
    argument of [path.join]. *)
Definition cacheDirName : result string :=
  let v := Js.get (Js.get (JObj cfg) "cache") "cacheDir" in
  if Js.truthy v then
    match v with
    | JStr d => Ok d
    | _ => Throw TypeError
    end
  else Ok defaultCacheDir.

Definition configDone (root : string) (st : State) : result State :=
  if cacheEnabled then
    let! d := cacheDirName in
    let! wm := initialize JSON_parse JSON_stringify (world st)
                 (newManager (Str.path_join root d)) in
    Ok (mkState (fst wm) (Some (snd wm)) (totals st))
  else Ok st.

(** ** The hook [astro:build:done] *)

Definition add_processed (t : Totals) : Totals :=
  mkTotals (originalSizeTotal t) (newSizeTotal t) (processedFiles t + 1)
    (skippedFiles t) (cacheHits t).

Definition add_skipped (t : Totals) : Totals :=
  mkTotals (originalSizeTotal t) (newSizeTotal t) (processedFiles t)
    (skippedFiles t + 1) (cacheHits t).

Definition add_hit (t : Totals) (e : CacheEntry) : Totals :=
  mkTotals (originalSizeTotal t + size_original e) (newSizeTotal t + size_compressed e)
    (processedFiles t) (skippedFiles t) (cacheHits t + 1).

(** The [then] callback of the branch with the cache: store the file as
    it now is on disk and count it as processed. *)
Definition cache_and_count (st : State) (candidate sourceOriginalHash : string)
    (originalContent : Buffer) (r : FileResult) : result State :=
  let! compressedContent := Fs.readFileSync (world st) candidate in
  match cacheManager st with
  | None => Throw TypeError
  | Some m =>
      let wm := saveToCache (world st) m candidate sourceOriginalHash
                  (Fs.size originalContent) compressedContent (usedConfig r) in
      Ok (mkState (fst wm) (Some (snd wm)) (add_processed (totals st)))
  end.

Definition after_process_cached (st : State) (candidate sourceOriginalHash : string)
    (originalContent : Buffer) (r : FileResult) : result State :=
  match outcome r with
  | RProcessed => cache_and_count st candidate sourceOriginalHash originalContent r
  | RFailed reason =>
      if String.eqb reason KnowFailReason.BiggerSize then
        cache_and_count st candidate sourceOriginalHash originalContent r
      else Ok (mkState (world st) (cacheManager st) (add_skipped (totals st)))
  end.

Definition after_process_plain (st : State) (r : FileResult) : State :=
  if processed r then mkState (world st) (cacheManager st) (add_processed (totals st))
  else mkState (world st) (cacheManager st) (add_skipped (totals st)).

(** One turn of the loop over the candidates, with the task it starts
    run to its end. *)
Definition handleCandidate (st : State) (candidate : string) : result State :=
  if cacheEnabled then
    let! originalContent := Fs.readFileSync (world st) candidate in
    let sourceOriginalHash := sha256 originalContent in
    let used := getUsedConfig cfg candidate in
    match cacheManager st with
    | None => Throw TypeError
    | Some m =>
        let looked := getCachedFile (world st) m candidate sourceOriginalHash used in
        let w1 := fst (fst looked) in
        let m1 := snd (fst looked) in
        match snd looked with
        | Some cachedFile =>
            let! compressedContent := Fs.readFileSync w1 (compressedPath cachedFile) in
            Ok (mkState (Fs.writeFileSync w1 candidate compressedContent) (Some m1)
                  (add_hit (totals st) cachedFile))
        | None =>
            let! sr := processFile (mkState w1 (Some m1) (totals st)) candidate in
            after_process_cached (fst sr) candidate sourceOriginalHash originalContent (snd sr)
        end
    end
  else
    let! sr := processFile st candidate in
    Ok (after_process_plain (fst sr) (snd sr)).

(** The loop; an exception ends the hook. *)
Fixpoint handleCandidates (st : State) (candidates : list string) : result State :=
  match candidates with
  | [] => Ok st
  | c :: r => let! st' := handleCandidate st c in handleCandidates st' r
  end.

(** [candidates] is what [traverseDirectory(dir)] returned. *)
Definition buildDone (candidates : list string) (st : State) : result State :=
  let! st1 := handleCandidates st candidates in
  if cacheEnabled then
    match cacheManager st1 with
    | None => Throw TypeError
    | Some m =>
        Ok (mkState (saveManifest JSON_stringify (world st1) m) (cacheManager st1) (totals st1))
    end
  else Ok st1.

(** One build: a fresh closure, then the two hooks. *)
Definition runBuild (root : string) (candidates : list string) (w : World) : result State :=
  let! st := configDone root (initialState w) in
  buildDone candidates st.

(** ** Entries a build can reuse *)

(** The manifest entry of [c] is valid for the bytes [c] now holds: same
    source hash, settings with the same serialization, artifact on
    disk. *)
Definition valid_entry (w : World) (m : CompressionCacheManagerImpl) (c : string) : Prop :=
  exists b e a,
    files w !! c = Some b /\
    entries (manifest m) !! c = Some e /\
    sourceHash e = sha256 b /\
    Js.stringify (settings e) = Js.stringify (getUsedConfig cfg c) /\
    files w !! compressedPath e = Some a.

End Pipeline.

(** ** Stand-ins for the external functions

    The digest, the JSON codec of the manifest file and the compression
    libraries are parameters of the model. The concrete scenarios below
    instantiate them with small functions of the same types. *)

Module Demo.

(** A digest: the hexadecimal dump of the bytes (injective, as sha256 is
    taken to be). *)
Fixpoint hex_digest (b : Buffer) : string :=
  match b with
  | EmptyString => EmptyString
  | String c r =>
      let n := nat_of_ascii c in
      String (Js.hex_digit (n / 16)) (String (Js.hex_digit (n mod 16)) (hex_digest r))
  end.

(** A rendering of a manifest: one item per entry. *)
Definition render (c : CompressionCache) : Buffer :=
  Str.join ";"
    (map (fun kv => fst kv ++ "=" ++ sourceHash (snd kv) ++ "@" ++ compressedPath (snd kv))
       (map_to_list (entries c))).

(** A reader that knows one manifest text, the rendering of [c], and
    rejects any other text. *)
Definition parse_only (c : CompressionCache) (text : Buffer) : option CompressionCache :=
  if String.eqb text (render c) then Some c else None.

(** A minifier that drops the spaces of an ASCII text. *)
Fixpoint strip_spaces (s : string) : string :=
  match s with
  | EmptyString => EmptyString
  | String c r =>
      if Ascii.eqb c " " then strip_spaces r else String c (strip_spaces r)
  end.

Definition minify (b : Buffer) : jsstring := Text.of_string (strip_spaces b).

Definition lib : Adapters :=
  mkAdapters
    (fun _ => Threw "Error: Input file contains unsupported image format")
    (fun _ _ b => Produced b)
    (fun _ b => Produced (minify b))
    (fun _ b => Produced (Some (minify b)))
    (fun _ b => Produced (Some (minify b)))
    (fun _ b => Produced (Some (minify b))).

Definition cacheRoot : string := "/site/node_modules/.astro/.gab-astro-compress".

End Demo.

(** ** Definitions the properties are stated with *)

(** Deep structural equality of two settings values that does not look at
    the order of the keys of an object: the comparison the specification
    asks for, written from its words to be compared with
    [settings_mismatch]. *)
Fixpoint deep_equal (a b : jsval) : bool :=
  match a, b with
  | JUndefined, JUndefined => true
  | JNull, JNull => true
  | JBool x, JBool y => Bool.eqb x y
  | JNum x, JNum y => x =? y
  | JStr x, JStr y => String.eqb x y
  | JFun, JFun => true
  | JArr l1, JArr l2 =>
      (fix go (l1 l2 : list jsval) : bool :=
         match l1, l2 with
         | [], [] => true
         | x :: r1, y :: r2 => deep_equal x y && go r1 r2
         | _, _ => false
         end) l1 l2
  | JObj o1, JObj o2 =>
      (List.length o1 =? List.length o2)%nat &&
      (fix go (o1 : list (string * jsval)) : bool :=
         match o1 with
         | [] => true
         | (k, x) :: r =>
             match Js.get_prop o2 k with
             | Some y => deep_equal x y && go r
             | None => false
             end
         end) o1
  | _, _ => false
  end.

(** The state after a result [c] for the file [p] of [n] bytes has been
    accepted: the file overwritten and the two size totals advanced. *)
Definition accepted_state (st : State) (p : string) (n : Z) (c : Content) : State :=
  mkState (Fs.writeFileSync (world st) p (content_bytes c)) (cacheManager st)
    (mkTotals (originalSizeTotal (totals st) + n)
       (newSizeTotal (totals st) + Fs.size (content_bytes c))
       (processedFiles (totals st)) (skippedFiles (totals st)) (cacheHits (totals st))).

(** Whether a word has no dot in it. *)
Fixpoint dot_free (s : string) : bool :=
  match s with
  | EmptyString => true
  | String c r => negb (Ascii.eqb c Str.dot) && dot_free r
  end.

(** ** Concrete scenarios *)

Module KeyOrder.

(** The css settings of two runs: the same options, written in two
    orders. The css options are not merged with defaults key by key, so
    each run keeps the order its caller wrote. *)
Definition first : UsedFormatConfig :=
  getUsedConfig
    (compressionConfig [("css", JObj [("restructure", JBool false); ("comments", JBool false)])])
    "/site/dist/a.css".

Definition second : UsedFormatConfig :=
  getUsedConfig
    (compressionConfig [("css", JObj [("comments", JBool false); ("restructure", JBool false)])])
    "/site/dist/a.css".

Definition artifact : string := Str.path_join Demo.cacheRoot "6162.css".

Definition entry : CacheEntry := mkEntry "6162" artifact 1000 first 2 2.

Definition manager : CompressionCacheManagerImpl :=
  mkManager Demo.cacheRoot (mkCache "1" {[ "/site/dist/a.css" := entry ]}).

Definition disk : World :=
  mkWorld {[ "/site/dist/a.css" := "ab"; artifact := "ab" ]} {[ Demo.cacheRoot ]} 2000.

End KeyOrder.

(** A style sheet that is already minimal and holds one character outside
    ASCII: the text [.é{color:red}], 13 code units, 14 bytes in UTF-8. The
    css minifier returns it as it is. *)
Module NonAscii.

Definition text : jsstring := (46 :: 233 :: Text.of_string "{color:red}")%N.

Definition bytes : Buffer := ".é{color:red}".

(** A minifier output of two code units that takes four bytes. *)
Definition wide : jsstring := [233; 233]%N.

Definition lib : Adapters :=
  mkAdapters (sharp_metadata Demo.lib) (sharp_toBuffer Demo.lib)
    (html_minify Demo.lib) (terser_minify Demo.lib) (svgo_optimize Demo.lib)
    (fun _ b =>
       if String.eqb b bytes then Produced (Some text)
       else if String.eqb b "abc" then Produced (Some wide)
       else Produced (Some (Demo.minify b))).

Definition disk : World :=
  mkWorld {[ "/site/dist/a.css" := bytes; "/site/dist/b.css" := "abc" ]} ∅ 1000.

End NonAscii.

(** A script the JavaScript minifier rejects. *)
Module Rejected.

Definition lib : Adapters :=
  mkAdapters (sharp_metadata Demo.lib) (sharp_toBuffer Demo.lib)
    (html_minify Demo.lib)
    (fun _ _ => Threw "SyntaxError: Unexpected token")
    (svgo_optimize Demo.lib) (csso_minify Demo.lib).

Definition disk : World := mkWorld {[ "/site/dist/b.js" := "function (" ]} ∅ 1000.

Definition ready : State :=
  mkState (Fs.mkdirSync disk Demo.cacheRoot) (Some (newManager Demo.cacheRoot)) initialTotals.

End Rejected.

(** A page with the extension htm, for which the resolver has no format. *)
Module Htm.

Definition disk : World := mkWorld {[ "/site/dist/page.htm" := "<p> hi </p>" ]} ∅ 1000.

(** A file no compressor is written for, in a state with the cache ready. *)
Definition ready : State :=
  mkState (mkWorld {[ "/site/dist/notes.txt" := "to do" ]} {[ Demo.cacheRoot ]} 1000)
    (Some (newManager Demo.cacheRoot)) initialTotals.

End Htm.

(** A site with one style sheet, built twice with the default options. *)
Module TwoRuns.

Definition original : Buffer := "a { color : red }".

Definition disk : World := mkWorld {[ "/site/dist/a.css" := original ]} ∅ 1000.

Definition candidates : list string := ["/site/dist/a.css"].

Definition first : result State :=
  runBuild (Demo.parse_only (mkCache "1" ∅)) Demo.render Demo.hex_digest Demo.lib []
    "/site" candidates disk.

Definition after_first : State :=
  match first with
  | Ok st => st
  | Throw _ => initialState disk
  end.

Definition manager1 : CompressionCacheManagerImpl :=
  default (newManager Demo.cacheRoot) (cacheManager after_first).


(** The second build, on the directory as the first one left it; the
    reader knows the manifest the first build wrote. *)
Definition second : result State :=
  runBuild (Demo.parse_only (manifest manager1)) Demo.render Demo.hex_digest Demo.lib []
    "/site" candidates (world after_first).

(** The directory after the build output has been regenerated. *)
Definition regenerated : World :=
  Fs.writeFileSync (world after_first) "/site/dist/a.css" original.

(** The state of a second build of the regenerated site once
    [astro:config:done] has loaded the manifest. *)
Definition loaded : State := mkState regenerated (Some manager1) initialTotals.

End TwoRuns.

(** ** Definitions and scenarios for the further properties *)

(** The own properties of a value that is an object; none otherwise. *)
Definition props_of (v : jsval) : props :=
  match v with
  | JObj l => l
  | _ => []
  end.

(** The value a key ends up with when the properties of [l] are written
    one after the other: the one of its last occurrence. *)
Definition last_binding (l : props) (k : string) : option jsval :=
  Js.get_prop (rev l) k.

(** Every call into a compression library throws. *)
Definition always_throws (lib : Adapters) : Prop :=
  (forall b, exists e, sharp_metadata lib b = Threw e) /\
  (forall f c b, exists e, sharp_toBuffer lib f c b = Threw e) /\
  (forall c b, exists e, html_minify lib c b = Threw e) /\
  (forall c b, exists e, terser_minify lib c b = Threw e) /\
  (forall c b, exists e, svgo_optimize lib c b = Threw e) /\
  (forall c b, exists e, csso_minify lib c b = Threw e).

(** Whether the inner [catch] of its branch, the one of the JavaScript and
    SVG branches, reports the failure of a path. *)
Definition caught_inside (filePath : string) : bool :=
  match branch_of filePath with
  | BJs | BSvg => true
  | _ => false
  end.

(** Compression libraries that reject every input. *)
Module Broken.

Definition lib : Adapters :=
  mkAdapters
    (fun _ => Threw "Error: Input file contains unsupported image format")
    (fun _ _ _ => Threw "Error: Input file contains unsupported image format")
    (fun _ _ => Threw "Error: Parse Error")
    (fun _ _ => Threw "SyntaxError: Unexpected token")
    (fun _ _ => Threw "SvgoParserError")
    (fun _ _ => Threw "CssSyntaxError").

Definition disk : World :=
  mkWorld {[ "/site/dist/a.svg" := "<svg"; "/site/dist/b.css" := "a {" ]} ∅ 1000.

End Broken.

(** * Properties *)

(** ** The cache manager *)

Lemma settings_mismatch_false (a b : UsedFormatConfig) :
  settings_mismatch a b = false <-> Js.stringify a = Js.stringify b.
Proof.
  unfold settings_mismatch. rewrite negb_false_iff, bool_decide_eq_true. reflexivity.
Qed.

Lemma invalidate_present (w : World) (m : CompressionCacheManagerImpl)
    (p : string) (e : CacheEntry) :
  entries (manifest m) !! p = Some e ->
  invalidate_and_forget w m p =
    (Fs.unlink w (compressedPath e), with_entries m (delete p (entries (manifest m)))).
Proof.
  intros H. unfold invalidate_and_forget, invalidateCache. simpl. rewrite H. reflexivity.
Qed.

Lemma getCachedFile_absent (w : World) (m : CompressionCacheManagerImpl)
    (p h : string) (s : UsedFormatConfig) :
  entries (manifest m) !! p = None -> getCachedFile w m p h s = (w, m, None).
Proof. unfold getCachedFile. intros ->. reflexivity. Qed.

Lemma getCachedFile_stale (w : World) (m : CompressionCacheManagerImpl)
    (p h : string) (s : UsedFormatConfig) (e : CacheEntry) :
  entries (manifest m) !! p = Some e ->
  sourceHash e <> h \/ Js.stringify (settings e) <> Js.stringify s ->
  getCachedFile w m p h s =
    (Fs.unlink w (compressedPath e), with_entries m (delete p (entries (manifest m))), None).
Proof.
  unfold getCachedFile. intros He Hd. rewrite He.
  destruct (negb (String.eqb (sourceHash e) h)) eqn:Hh.
  - rewrite (invalidate_present w m p e He). reflexivity.
  - destruct (settings_mismatch (settings e) s) eqn:Hs.
    + rewrite (invalidate_present w m p e He). reflexivity.
    + exfalso. apply settings_mismatch_false in Hs.
      apply negb_false_iff, String.eqb_eq in Hh.
      destruct Hd as [Hd | Hd]; contradiction.
Qed.

Lemma getCachedFile_matching (w : World) (m : CompressionCacheManagerImpl)
    (p h : string) (s : UsedFormatConfig) (e : CacheEntry) :
  entries (manifest m) !! p = Some e ->
  sourceHash e = h -> Js.stringify (settings e) = Js.stringify s ->
  getCachedFile w m p h s =
    if Fs.exists_path w (compressedPath e) then (w, m, Some e)
    else (w, with_entries m (delete p (entries (manifest m))), None).
Proof.
  unfold getCachedFile. intros He Hh Hs. rewrite He.
  apply settings_mismatch_false in Hs. rewrite Hs.
  subst h. rewrite String.eqb_refl. reflexivity.
Qed.


(** The four cases on the manager of [KeyOrder], whose only entry is the
    one of a.css. *)
Example getCachedFile_on_demo :
  getCachedFile KeyOrder.disk KeyOrder.manager "/site/dist/b.css" "6162" KeyOrder.first
    = (KeyOrder.disk, KeyOrder.manager, None) /\
  getCachedFile KeyOrder.disk KeyOrder.manager "/site/dist/a.css" "6163" KeyOrder.first
    = (Fs.unlink KeyOrder.disk KeyOrder.artifact, with_entries KeyOrder.manager ∅, None) /\
  getCachedFile (Fs.unlink KeyOrder.disk KeyOrder.artifact) KeyOrder.manager
      "/site/dist/a.css" "6162" KeyOrder.first
    = (Fs.unlink KeyOrder.disk KeyOrder.artifact, with_entries KeyOrder.manager ∅, None) /\
  getCachedFile KeyOrder.disk KeyOrder.manager "/site/dist/a.css" "6162" KeyOrder.first
    = (KeyOrder.disk, KeyOrder.manager, Some KeyOrder.entry).
Proof. repeat split; vm_compute; reflexivity. Qed.

(** *** The settings comparison *)

(** C3, as stated, fails: two settings values that are deeply equal but
    list their keys in different orders serialize differently, and
    [getCachedFile] invalidates the entry (the artifact is unlinked and the
    entry removed) although hash and artifact are in order. *)
Lemma settings_key_order_invalidates :
  deep_equal KeyOrder.first KeyOrder.second = true /\
  Js.stringify KeyOrder.first <> Js.stringify KeyOrder.second /\
  getCachedFile KeyOrder.disk KeyOrder.manager "/site/dist/a.css" "6162" KeyOrder.second =
    (Fs.unlink KeyOrder.disk KeyOrder.artifact,
     with_entries KeyOrder.manager ∅, None) /\
  files (Fs.unlink KeyOrder.disk KeyOrder.artifact) !! KeyOrder.artifact = None.
Proof.
  repeat split; vm_compute; congruence.
Qed.

(** C3, amended. The comparison [getCachedFile] uses is equality of the
    two [JSON.stringify] texts, which follows the order of the keys: an
    entry whose hash matches is kept (returned when its artifact exists,
    never unlinked) exactly when its settings serialize to the text of the
    current settings, which is the case whenever the two values are the
    same key for key and in the same order; when the texts differ, be it
    by key order alone, the entry is invalidated. *)
Theorem settings_compared_as_serialized (w : World) (m : CompressionCacheManagerImpl)
    (p h : string) (s : UsedFormatConfig) (e : CacheEntry)
    (He : entries (manifest m) !! p = Some e)
    (Hh : sourceHash e = h) :
  (settings e = s -> Js.stringify (settings e) = Js.stringify s) /\
  (Js.stringify (settings e) = Js.stringify s ->
     fst (fst (getCachedFile w m p h s)) = w /\
     (Fs.exists_path w (compressedPath e) = true ->
      getCachedFile w m p h s = (w, m, Some e))) /\
  (Js.stringify (settings e) <> Js.stringify s ->
     getCachedFile w m p h s =
       (Fs.unlink w (compressedPath e),
        with_entries m (delete p (entries (manifest m))), None)).
Proof.
  split; [intros ->; reflexivity |]. split.
  - intros Hs. rewrite (getCachedFile_matching w m p h s e He Hh Hs). split.
    + destruct (Fs.exists_path w (compressedPath e)); reflexivity.
    + intros ->. reflexivity.
  - intros Hs. apply (getCachedFile_stale w m p h s e He). right. exact Hs.
Qed.

(** The comparison on the manager of [KeyOrder], asked with the settings
    its entry was stored with. *)
Lemma settings_compared_as_serialized_witness :
  (settings KeyOrder.entry = KeyOrder.first ->
     Js.stringify (settings KeyOrder.entry) = Js.stringify KeyOrder.first) /\
  (Js.stringify (settings KeyOrder.entry) = Js.stringify KeyOrder.first ->
     fst (fst (getCachedFile KeyOrder.disk KeyOrder.manager "/site/dist/a.css" "6162"
                 KeyOrder.first)) = KeyOrder.disk /\
     (Fs.exists_path KeyOrder.disk (compressedPath KeyOrder.entry) = true ->
      getCachedFile KeyOrder.disk KeyOrder.manager "/site/dist/a.css" "6162" KeyOrder.first =
        (KeyOrder.disk, KeyOrder.manager, Some KeyOrder.entry))) /\
  (Js.stringify (settings KeyOrder.entry) <> Js.stringify KeyOrder.first ->
     getCachedFile KeyOrder.disk KeyOrder.manager "/site/dist/a.css" "6162" KeyOrder.first =
       (Fs.unlink KeyOrder.disk (compressedPath KeyOrder.entry),
        with_entries KeyOrder.manager
          (delete "/site/dist/a.css" (entries (manifest KeyOrder.manager))), None)).
Proof.
  apply (settings_compared_as_serialized KeyOrder.disk KeyOrder.manager
           "/site/dist/a.css" "6162" KeyOrder.first KeyOrder.entry).
  - vm_compute. reflexivity.
  - reflexivity.
Defined.

(** *** Storing and invalidating *)

Lemma saveToCache_entry (w : World) (m : CompressionCacheManagerImpl)
    (p h : string) (n : Z) (c : Buffer) (s : UsedFormatConfig) :
  entries (manifest (snd (saveToCache w m p h n c s))) !! p =
    Some (mkEntry h (cachedFilePath m p h) (clock w) s n (Fs.size c)).
Proof. unfold saveToCache. simpl. apply lookup_insert_eq. Qed.

Lemma saveToCache_other (w : World) (m : CompressionCacheManagerImpl)
    (p h : string) (n : Z) (c : Buffer) (s : UsedFormatConfig) (q : string) :
  q <> p ->
  entries (manifest (snd (saveToCache w m p h n c s))) !! q = entries (manifest m) !! q.
Proof. intros H. unfold saveToCache. simpl. apply lookup_insert_ne. congruence. Qed.

Lemma saveToCache_file (w : World) (m : CompressionCacheManagerImpl)
    (p h : string) (n : Z) (c : Buffer) (s : UsedFormatConfig) :
  files (fst (saveToCache w m p h n c s)) !! cachedFilePath m p h = Some c.
Proof. unfold saveToCache. simpl. apply lookup_insert_eq. Qed.

(** C9. Two [saveToCache] calls for distinct original paths with the same
    source hash and the same final extension leave two manifest entries
    with one and the same [compressedPath]; [invalidateCache] of either
    path then unlinks that single file while the entry of the other path,
    still in the manifest, goes on referring to it. *)
Theorem saveToCache_shares_artifact (w : World) (m : CompressionCacheManagerImpl)
    (p1 p2 h : string) (n1 n2 : Z) (c1 c2 : Buffer) (s1 s2 : UsedFormatConfig)
    (Hp : p1 <> p2)
    (Hext : cache_extension p1 = cache_extension p2) :
  let a := saveToCache w m p1 h n1 c1 s1 in
  let b := saveToCache (fst a) (snd a) p2 h n2 c2 s2 in
  exists e1 e2,
    entries (manifest (snd b)) !! p1 = Some e1 /\
    entries (manifest (snd b)) !! p2 = Some e2 /\
    compressedPath e1 = compressedPath e2 /\
    files (fst b) !! compressedPath e1 = Some c2 /\
    (exists w' m', invalidateCache (fst b) (snd b) (Some p1) = Ok (w', m') /\
       files w' !! compressedPath e2 = None /\
       entries (manifest m') !! p1 = None /\
       entries (manifest m') !! p2 = Some e2) /\
    (exists w' m', invalidateCache (fst b) (snd b) (Some p2) = Ok (w', m') /\
       files w' !! compressedPath e1 = None /\
       entries (manifest m') !! p2 = None /\
       entries (manifest m') !! p1 = Some e1).
Proof.
  intros a b.
  set (path := cachedFilePath m p1 h).
  assert (Hpath : cachedFilePath (snd a) p2 h = path).
  { unfold path, cachedFilePath. rewrite Hext. reflexivity. }
  set (e1 := mkEntry h path (clock w) s1 n1 (Fs.size c1)).
  set (e2 := mkEntry h path (clock (fst a)) s2 n2 (Fs.size c2)).
  assert (H2 : entries (manifest (snd b)) !! p2 = Some e2).
  { unfold b. rewrite saveToCache_entry, Hpath. reflexivity. }
  assert (H1 : entries (manifest (snd b)) !! p1 = Some e1).
  { unfold b. rewrite saveToCache_other by exact Hp. unfold a.
    rewrite saveToCache_entry. reflexivity. }
  assert (Hfile : files (fst b) !! path = Some c2).
  { rewrite <- Hpath. apply saveToCache_file. }
  exists e1, e2. repeat (split; [assumption || reflexivity |]).
  unfold invalidateCache. simpl property_key. rewrite H1, H2. split.
  - eexists _, _. split; [reflexivity |]. simpl.
    rewrite !lookup_delete_eq, lookup_delete_ne by congruence. auto.
  - eexists _, _. split; [reflexivity |]. simpl.
    rewrite !lookup_delete_eq, lookup_delete_ne by congruence. auto.
Qed.

(** Two style sheets with the same bytes, a.css and copy/b.css, stored one
    after the other. *)
Lemma saveToCache_shares_artifact_witness :
  let a := saveToCache KeyOrder.disk (newManager Demo.cacheRoot)
             "/site/dist/a.css" "6162" 2 "ab" JNull in
  let b := saveToCache (fst a) (snd a) "/site/dist/copy/b.css" "6162" 2 "ab" JNull in
  exists e1 e2,
    entries (manifest (snd b)) !! "/site/dist/a.css" = Some e1 /\
    entries (manifest (snd b)) !! "/site/dist/copy/b.css" = Some e2 /\
    compressedPath e1 = compressedPath e2 /\
    files (fst b) !! compressedPath e1 = Some "ab" /\
    (exists w' m', invalidateCache (fst b) (snd b) (Some "/site/dist/a.css") = Ok (w', m') /\
       files w' !! compressedPath e2 = None /\
       entries (manifest m') !! "/site/dist/a.css" = None /\
       entries (manifest m') !! "/site/dist/copy/b.css" = Some e2) /\
    (exists w' m', invalidateCache (fst b) (snd b) (Some "/site/dist/copy/b.css") = Ok (w', m') /\
       files w' !! compressedPath e1 = None /\
       entries (manifest m') !! "/site/dist/copy/b.css" = None /\
       entries (manifest m') !! "/site/dist/a.css" = Some e1).
Proof.
  apply (saveToCache_shares_artifact KeyOrder.disk (newManager Demo.cacheRoot)
           "/site/dist/a.css" "/site/dist/copy/b.css" "6162" 2 2 "ab" "ab" JNull JNull).
  - discriminate.
  - reflexivity.
Defined.


(** The two sides of C10 on the manager of [KeyOrder]: an entry is there
    for a.css, none for b.css and none under undefined. *)
Example invalidateCache_on_demo :
  (exists w' m', invalidateCache KeyOrder.disk KeyOrder.manager (Some "/site/dist/a.css")
                 = Ok (w', m') /\ entries (manifest m') = ∅ /\
                 files w' !! KeyOrder.artifact = None) /\
  invalidateCache KeyOrder.disk KeyOrder.manager (Some "/site/dist/b.css") = Throw TypeError /\
  invalidateCache KeyOrder.disk KeyOrder.manager None = Throw TypeError.
Proof.
  split; [| split; reflexivity].
  eexists _, _. split; [reflexivity |]. split; vm_compute; reflexivity.
Qed.

(** *** Initialization *)


(** On a disk without a manifest file, and on one whose manifest file
    holds a text that does not parse, the empty manifest is written. *)
Example initialize_on_demo :
  let corrupt :=
    mkWorld {[ Str.path_join Demo.cacheRoot "manifest.json" := "{ not json" ]} ∅ 1000 in
  let written :=
    {[ Str.path_join Demo.cacheRoot "manifest.json" := Demo.render (mkCache "1" ∅) ]} in
  initialize (Demo.parse_only (mkCache "1" ∅)) Demo.render (mkWorld ∅ ∅ 1000)
    (newManager Demo.cacheRoot)
    = Ok (mkWorld written {[ Demo.cacheRoot ]} 1000, newManager Demo.cacheRoot) /\
  initialize (Demo.parse_only (manifest KeyOrder.manager)) Demo.render corrupt
    (newManager Demo.cacheRoot)
    = Ok (mkWorld written {[ Demo.cacheRoot ]} 1000, newManager Demo.cacheRoot) /\
  initialize (Demo.parse_only (manifest KeyOrder.manager)) Demo.render
    (mkWorld {[ Str.path_join Demo.cacheRoot "manifest.json"
                  := Demo.render (manifest KeyOrder.manager) ]} ∅ 1000)
    (newManager Demo.cacheRoot)
    = Ok (mkWorld {[ Str.path_join Demo.cacheRoot "manifest.json"
                       := Demo.render (manifest KeyOrder.manager) ]} {[ Demo.cacheRoot ]} 1000,
          KeyOrder.manager).
Proof. repeat split; vm_compute; reflexivity. Qed.

(** ** The pipeline *)

Section PipelineFacts.

Variable sha256 : Buffer -> string.
Variable lib : Adapters.
Variable options : props.

Local Abbreviation processFile := (processFile lib options).
Local Abbreviation handleCandidate := (handleCandidate sha256 lib options).
Local Abbreviation cfg := (cfg options).

Lemma handleCompressedResult_rejected (st : State) (p : string) (n : Z) (c : Content) :
  n <= content_length c ->
  handleCompressedResult st p n c = (st, 0, RFailed KnowFailReason.BiggerSize).
Proof.
  intros H. unfold handleCompressedResult.
  destruct (content_length c <? n) eqn:E; [apply Z.ltb_lt in E; lia | reflexivity].
Qed.

Lemma handleCompressedResult_accepted (st : State) (p : string) (n : Z) (c : Content) :
  content_length c < n ->
  handleCompressedResult st p n c =
    (accepted_state st p n c, Fs.size (content_bytes c), RProcessed).
Proof.
  intros H. unfold handleCompressedResult.
  destruct (content_length c <? n) eqn:E; [reflexivity | apply Z.ltb_ge in E; lia].
Qed.

(** What [handleCompressedResult] does to the state, whatever it decides. *)
Lemma handleCompressedResult_effect (st : State) (p : string) (n : Z) (c : Content) :
  let r := handleCompressedResult st p n c in
  (snd r = RProcessed /\ content_length c < n /\
   fst (fst r) = accepted_state st p n c) \/
  (snd r = RFailed KnowFailReason.BiggerSize /\ n <= content_length c /\ fst (fst r) = st).
Proof.
  simpl. destruct (Z.lt_ge_cases (content_length c) n) as [H | H].
  - left. rewrite (handleCompressedResult_accepted st p n c H). simpl. auto.
  - right. rewrite (handleCompressedResult_rejected st p n c H). simpl. auto.
Qed.

(** The states [processFile] can return: the one it was given, or that
    one with the file overwritten by an accepted result. *)
Lemma processFile_effect (st st' : State) (p : string) (r : FileResult) :
  processFile st p = Ok (st', r) ->
  (exists reason, outcome r = RFailed reason /\ st' = st) \/
  (outcome r = RProcessed /\
   exists c b, files (world st) !! p = Some b /\ content_length c < Fs.size b /\
     st' = accepted_state st p (Fs.size b) c).
Proof.
  unfold processFile, Fs.readFileSync.
  destruct (files (world st) !! p) as [b |] eqn:Hb; simpl; [| discriminate].
  intros H. injection H as H.
  assert (Hres : forall c x, x = handleCompressedResult st p (Fs.size b) c ->
    (fst (fst x), mkFileResult (snd x) (Fs.size b) (snd (fst x)) (getUsedConfig cfg p))
      = (st', r) ->
    (exists reason, outcome r = RFailed reason /\ st' = st) \/
    (outcome r = RProcessed /\
     exists c b0, Some b = Some b0 /\ content_length c < Fs.size b0 /\
       st' = accepted_state st p (Fs.size b0) c)).
  { intros c x -> Hx. injection Hx as <- <-. simpl.
    destruct (handleCompressedResult_effect st p (Fs.size b) c)
      as [(Ho & Hlt & Hst) | (Ho & Hge & Hst)].
    - right. split; [exact Ho |]. exists c, b. auto.
    - left. eexists. split; [exact Ho | exact Hst]. }
  unfold process_body, try_catch in H. cbv beta zeta in H.
  repeat match type of H with
         | context [match ?x with _ => _ end] =>
             lazymatch x with
             | context [match _ with _ => _ end] => fail
             | _ => destruct x eqn:?
             end
         end;
    try (eapply Hres in H; [exact H | reflexivity]);
    injection H as <- <-; left; eexists; split; reflexivity.
Qed.

Lemma processFile_rejected (st st' : State) (p : string) (r : FileResult) (reason : string) :
  processFile st p = Ok (st', r) -> outcome r = RFailed reason -> st' = st.
Proof.
  intros H Ho. destruct (processFile_effect st st' p r H) as [(x & _ & Hst) | (Hp & _)].
  - exact Hst.
  - rewrite Hp in Ho. discriminate.
Qed.

Lemma processFile_returns (st : State) (p : string) (b : Buffer) :
  files (world st) !! p = Some b ->
  exists st' r, processFile st p = Ok (st', r).
Proof.
  intros H. unfold processFile, Fs.readFileSync. rewrite H. simpl.
  eexists _, _. rewrite <- surjective_pairing. reflexivity.
Qed.

Lemma processFile_unmatched (st : State) (p : string) (b : Buffer) :
  files (world st) !! p = Some b -> branch_of p = BOther ->
  processFile st p =
    Ok (st, mkFileResult (RFailed KnowFailReason.Skipped) (Fs.size b) 0 (getUsedConfig cfg p)).
Proof.
  intros H Hbr. unfold processFile, Fs.readFileSync, process_body.
  rewrite H, Hbr. reflexivity.
Qed.

End PipelineFacts.

(** C4 on the code. [handleCompressedResult] compares [.length] of the
    result with the byte size of the file, and for a text result
    [.length] counts UTF-16 code units, not bytes. The minimal style sheet
    [.é{color:red}] (14 bytes) comes back from the minifier unchanged (13
    code units): it is accepted, written over the file and counted in the
    totals although its byte length, 14, is not less than the original's.
    And a text of 2 code units and 4 bytes replaces a file of 3 bytes. *)
Theorem text_length_is_not_byte_length :
  Text.utf8_encode NonAscii.text = NonAscii.bytes /\
  content_length (CString NonAscii.text) = 13 /\
  Fs.size (content_bytes (CString NonAscii.text)) = 14 /\
  (exists st,
     processFile NonAscii.lib [] (initialState NonAscii.disk) "/site/dist/a.css" =
       Ok (st, mkFileResult RProcessed 14 14
                 (JObj [("config", JObj []); ("format", JStr "css")])) /\
     originalSizeTotal (totals st) = 14 /\ newSizeTotal (totals st) = 14) /\
  (exists st,
     processFile NonAscii.lib [] (initialState NonAscii.disk) "/site/dist/b.css" =
       Ok (st, mkFileResult RProcessed 3 4
                 (JObj [("config", JObj []); ("format", JStr "css")])) /\
     files (world (initialState NonAscii.disk)) !! "/site/dist/b.css" = Some "abc" /\
     files (world st) !! "/site/dist/b.css" = Some "éé").
Proof.
  split; [vm_compute; reflexivity |].
  split; [reflexivity |].
  split; [vm_compute; reflexivity |].
  split; eexists; (split; [vm_compute; reflexivity |]); split; vm_compute; reflexivity.
Qed.

(** Where the two lengths agree (a [Buffer], or a text whose every code
    unit takes one byte) the decision is the one on byte lengths: accepted
    exactly when strictly smaller, and nothing is touched otherwise. *)
Lemma accepted_iff_smaller_bytes (st : State) (p : string) (n : Z) (c : Content) :
  Fs.size (content_bytes c) = content_length c ->
  (snd (handleCompressedResult st p n c) = RProcessed <-> Fs.size (content_bytes c) < n) /\
  (n <= Fs.size (content_bytes c) -> fst (fst (handleCompressedResult st p n c)) = st).
Proof.
  intros H. rewrite H. split; [split |].
  - intros Hp. destruct (Z.lt_ge_cases (content_length c) n) as [Hlt | Hge]; [exact Hlt |].
    rewrite (handleCompressedResult_rejected st p n c Hge) in Hp. discriminate.
  - intros Hlt. rewrite (handleCompressedResult_accepted st p n c Hlt). reflexivity.
  - intros Hge. rewrite (handleCompressedResult_rejected st p n c Hge). reflexivity.
Qed.

Lemma buffer_lengths_agree (b : Buffer) :
  Fs.size (content_bytes (CBuffer b)) = content_length (CBuffer b).
Proof. reflexivity. Qed.

(** *** What a cache lookup leaves behind *)

Lemma getCachedFile_miss_no_entry (w : World) (m : CompressionCacheManagerImpl)
    (p h : string) (s : UsedFormatConfig) :
  snd (getCachedFile w m p h s) = None ->
  entries (manifest (snd (fst (getCachedFile w m p h s)))) !! p = None.
Proof.
  unfold getCachedFile.
  destruct (entries (manifest m) !! p) as [e |] eqn:He; simpl; [| intros _; exact He].
  destruct (negb (String.eqb (sourceHash e) h)).
  { rewrite (invalidate_present w m p e He). simpl. intros _. apply lookup_delete_eq. }
  destruct (settings_mismatch (settings e) s).
  { rewrite (invalidate_present w m p e He). simpl. intros _. apply lookup_delete_eq. }
  destruct (Fs.exists_path w (compressedPath e)); simpl; [discriminate |].
  intros _. apply lookup_delete_eq.
Qed.

(** A lookup writes no file and creates no directory: it can only unlink. *)
Lemma getCachedFile_only_unlinks (w : World) (m : CompressionCacheManagerImpl)
    (p h : string) (s : UsedFormatConfig) (q : string) (x : Buffer) :
  files (fst (fst (getCachedFile w m p h s))) !! q = Some x -> files w !! q = Some x.
Proof.
  unfold getCachedFile.
  destruct (entries (manifest m) !! p) as [e |] eqn:He; simpl; [| tauto].
  assert (Hdel : files (Fs.unlink w (compressedPath e)) !! q = Some x -> files w !! q = Some x).
  { simpl. intros H. apply lookup_delete_Some in H. tauto. }
  destruct (negb (String.eqb (sourceHash e) h)).
  { rewrite (invalidate_present w m p e He). exact Hdel. }
  destruct (settings_mismatch (settings e) s).
  { rewrite (invalidate_present w m p e He). exact Hdel. }
  destruct (Fs.exists_path w (compressedPath e)); simpl; tauto.
Qed.

Lemma getCachedFile_hit (w : World) (m : CompressionCacheManagerImpl)
    (p h : string) (s : UsedFormatConfig) (e : CacheEntry) :
  snd (getCachedFile w m p h s) = Some e ->
  getCachedFile w m p h s = (w, m, Some e) /\
  entries (manifest m) !! p = Some e /\ sourceHash e = h /\
  Js.stringify (settings e) = Js.stringify s /\
  Fs.exists_path w (compressedPath e) = true.
Proof.
  unfold getCachedFile.
  destruct (entries (manifest m) !! p) as [e' |] eqn:He; simpl; [| discriminate].
  destruct (negb (String.eqb (sourceHash e') h)) eqn:Hh; simpl; [discriminate |].
  destruct (settings_mismatch (settings e') s) eqn:Hs; simpl; [discriminate |].
  destruct (Fs.exists_path w (compressedPath e')) eqn:Hx; simpl; [| discriminate].
  intros H. injection H as ->.
  apply negb_false_iff, String.eqb_eq in Hh. apply settings_mismatch_false in Hs. auto.
Qed.

Section Rejection.

Variable sha256 : Buffer -> string.
Variable lib : Adapters.
Variable options : props.

Local Abbreviation processFile := (processFile lib options).
Local Abbreviation handleCandidate := (handleCandidate sha256 lib options).
Local Abbreviation cfg := (cfg options).
Local Abbreviation cacheEnabled := (cacheEnabled options).

(** The turn of the loop for a candidate the cache does not serve. *)
Lemma handleCandidate_miss (st : State) (m : CompressionCacheManagerImpl)
    (p : string) (b : Buffer) :
  cacheEnabled = true -> cacheManager st = Some m ->
  files (world st) !! p = Some b ->
  let looked := getCachedFile (world st) m p (sha256 b) (getUsedConfig cfg p) in
  snd looked = None ->
  handleCandidate st p =
    (let! sr := processFile (mkState (fst (fst looked)) (Some (snd (fst looked))) (totals st)) p in
     after_process_cached (fst sr) p (sha256 b) b (snd sr)).
Proof.
  intros Hen Hm Hb looked Hmiss. unfold handleCandidate, Fs.readFileSync.
  rewrite Hen, Hb. simpl. rewrite Hm. fold looked. rewrite Hmiss. reflexivity.
Qed.

(** C5, amended. A rejected attempt leaves the file as it was. With the
    cache enabled, the original bytes are stored as the cache entry of
    the path when the rejection is the not-smaller one; a rejection for
    any other reason (a structured failure of the compressor, no output,
    an exception, an extension without a compressor) is counted as
    skipped and stores nothing: the path has no manifest entry
    afterwards. With the cache disabled every rejection is counted as
    skipped. *)
Theorem rejected_attempt (st st1 : State) (p : string) (b : Buffer)
    (r : FileResult) (reason : string)
    (Hb : files (world st) !! p = Some b)
    (Hr : outcome r = RFailed reason) :
  (cacheEnabled = false -> processFile st p = Ok (st1, r) ->
     st1 = st /\
     handleCandidate st p =
       Ok (mkState (world st) (cacheManager st) (add_skipped (totals st)))) /\
  (cacheEnabled = true ->
   forall m, cacheManager st = Some m ->
     let looked := getCachedFile (world st) m p (sha256 b) (getUsedConfig cfg p) in
     let st0 := mkState (fst (fst looked)) (Some (snd (fst looked))) (totals st) in
     snd looked = None ->
     processFile st0 p = Ok (st1, r) ->
     st1 = st0 /\
     (reason <> KnowFailReason.BiggerSize ->
        handleCandidate st p =
          Ok (mkState (world st0) (cacheManager st0) (add_skipped (totals st))) /\
        entries (manifest (snd (fst looked))) !! p = None) /\
     (reason = KnowFailReason.BiggerSize ->
        exists st' m' e,
          handleCandidate st p = Ok st' /\
          cacheManager st' = Some m' /\
          entries (manifest m') !! p = Some e /\
          sourceHash e = sha256 b /\
          settings e = usedConfig r /\
          size_original e = Fs.size b /\
          files (world st') !! compressedPath e = Some b /\
          files (world st') !! p = Some b)).
Proof.
  split.
  - intros Hen Hp. pose proof (processFile_rejected lib options st st1 p r reason Hp Hr) as ->.
    split; [reflexivity |].
    unfold handleCandidate. rewrite Hen, Hp. simpl.
    unfold after_process_plain, processed. rewrite Hr. reflexivity.
  - intros Hen m Hm looked st0 Hmiss Hp.
    pose proof (processFile_rejected lib options st0 st1 p r reason Hp Hr) as ->.
    split; [reflexivity |].
    pose proof (handleCandidate_miss st m p b Hen Hm Hb Hmiss) as Hstep.
    fold looked in Hstep. fold st0 in Hstep. rewrite Hp in Hstep. simpl in Hstep.
    unfold after_process_cached in Hstep. rewrite Hr in Hstep.
    split.
    + intros Hne. apply String.eqb_neq in Hne. rewrite Hne in Hstep.
      split; [exact Hstep |]. apply getCachedFile_miss_no_entry. exact Hmiss.
    + intros ->. rewrite String.eqb_refl in Hstep.
      assert (Hb0 : files (world st0) !! p = Some b).
      { unfold processFile, Fs.readFileSync in Hp.
        destruct (files (world st0) !! p) as [b0 |] eqn:Hb0; [| discriminate].
        apply (getCachedFile_only_unlinks (world st) m p (sha256 b)
                 (getUsedConfig cfg p) p b0) in Hb0.
        congruence. }
      unfold cache_and_count, Fs.readFileSync in Hstep. rewrite Hb0 in Hstep.
      simpl in Hstep.
      eexists _, _, _. split; [exact Hstep |]. simpl.
      split; [reflexivity |]. split; [apply lookup_insert_eq |]. simpl.
      split; [reflexivity |]. split; [reflexivity |]. split; [reflexivity |].
      split; [apply lookup_insert_eq |].
      destruct (decide (cachedFilePath (snd (fst looked)) p (sha256 b) = p)) as [-> | Hne].
      * apply lookup_insert_eq.
      * rewrite lookup_insert_ne by exact Hne. exact Hb0.
Qed.

End Rejection.

(** C5, as stated, fails: with the cache enabled (the default options), a
    script the minifier rejects is counted as skipped, yet its original
    bytes are not stored: the manifest stays empty and the only file the
    run adds is the manifest itself. *)
Lemma failure_is_not_cached :
  exists st m,
    runBuild (Demo.parse_only (mkCache "1" ∅)) Demo.render Demo.hex_digest Rejected.lib []
      "/site" ["/site/dist/b.js"] Rejected.disk = Ok st /\
    cacheManager st = Some m /\
    skippedFiles (totals st) = 1 /\
    entries (manifest m) = ∅ /\
    files (world st) =
      <[Str.path_join Demo.cacheRoot "manifest.json" := Demo.render (mkCache "1" ∅)]>
        (files Rejected.disk).
Proof.
  eexists _, _. split; [vm_compute; reflexivity |].
  split; [reflexivity |]. repeat split; vm_compute; reflexivity.
Qed.

(** The rejected script, in a state with the cache ready and empty. *)
Lemma rejected_attempt_witness :
  handleCandidate Demo.hex_digest Rejected.lib [] Rejected.ready "/site/dist/b.js" =
    Ok (mkState (world Rejected.ready) (cacheManager Rejected.ready)
          (add_skipped initialTotals)) /\
  entries (manifest (newManager Demo.cacheRoot)) !! "/site/dist/b.js" = None.
Proof.
  assert (Hb : files (world Rejected.ready) !! "/site/dist/b.js" = Some "function (")
    by (vm_compute; reflexivity).
  destruct (rejected_attempt Demo.hex_digest Rejected.lib [] Rejected.ready Rejected.ready
              "/site/dist/b.js" "function ("
              (mkFileResult (RFailed "javascript minification failed") 10 10
                 (getUsedConfig (compressionConfig []) "/site/dist/b.js"))
              "javascript minification failed" Hb eq_refl) as [_ H].
  assert (Hen : cacheEnabled [] = true) by (vm_compute; reflexivity).
  destruct (H Hen (newManager Demo.cacheRoot) eq_refl) as (_ & Hs & _).
  - vm_compute. reflexivity.
  - vm_compute. reflexivity.
  - apply Hs. vm_compute. discriminate.
Defined.

(** *** Files without a compressor *)

Lemma toLowerCase_app (a b : string) :
  Str.toLowerCase (a ++ b) = Str.toLowerCase a ++ Str.toLowerCase b.
Proof. induction a as [| c a IH]; simpl; [reflexivity | rewrite IH; reflexivity]. Qed.

Lemma length_app (a b : string) :
  String.length (a ++ b) = (String.length a + String.length b)%nat.
Proof. induction a as [| c a IH]; simpl; [reflexivity | rewrite IH; reflexivity]. Qed.

Lemma substring_skip (a b : string) (n m : nat) :
  substring (String.length a + n) m (a ++ b) = substring n m b.
Proof. induction a as [| c a IH]; simpl; [reflexivity | exact IH]. Qed.

(** A suffix no longer than the last part of a path is looked for in that
    part alone. *)
Lemma endsWith_app (a b suf : string) :
  (String.length suf <= String.length b)%nat ->
  Str.endsWith (a ++ b) suf = Str.endsWith b suf.
Proof.
  intros H. unfold Str.endsWith. rewrite length_app.
  replace (String.length a + String.length b - String.length suf)%nat
    with (String.length a + (String.length b - String.length suf))%nat by lia.
  rewrite substring_skip.
  replace (String.length suf <=? String.length a + String.length b)%nat with true
    by (symmetry; apply Nat.leb_le; lia).
  replace (String.length suf <=? String.length b)%nat with true
    by (symmetry; apply Nat.leb_le; lia).
  reflexivity.
Qed.

Lemma branch_of_manifest (dir : string) :
  branch_of (Str.path_join dir "manifest.json") = BOther.
Proof.
  unfold branch_of, has_extension, Str.path_join. simpl existsb.
  rewrite toLowerCase_app.
  rewrite !endsWith_app by (simpl; lia). reflexivity.
Qed.

(** *** The resolver and the patterns of [processFile] *)

Lemma substring_full (s : string) : substring 0 (String.length s) s = s.
Proof. induction s as [| c s IH]; simpl; [reflexivity | rewrite IH; reflexivity]. Qed.

Lemma substring_tail (s suf : string) (k m : nat) :
  substring k m s = suf -> (k + m = String.length s)%nat -> exists pre, s = pre ++ suf.
Proof.
  revert k. induction s as [| c s IH]; intros k Hsub Hlen.
  - simpl in Hlen. assert (k = 0)%nat as -> by lia. assert (m = 0)%nat as -> by lia.
    simpl in Hsub. exists EmptyString. subst suf. reflexivity.
  - destruct k as [| k].
    + simpl in Hlen. subst m.
      change (S (String.length s)) with (String.length (String c s)) in Hsub.
      rewrite substring_full in Hsub.
      exists EmptyString. subst suf. reflexivity.
    + simpl in Hsub, Hlen. destruct (IH k Hsub) as [pre Hpre]; [lia |].
      exists (String c pre). rewrite Hpre at 1. reflexivity.
Qed.

Lemma endsWith_suffix (s suf : string) :
  Str.endsWith s suf = true -> exists pre, s = pre ++ suf.
Proof.
  unfold Str.endsWith. intros H. apply andb_true_iff in H as [Hlen Heq].
  apply Nat.leb_le in Hlen. apply String.eqb_eq in Heq.
  apply (substring_tail s suf _ _ Heq). lia.
Qed.

Lemma append_empty (s : string) : s ++ EmptyString = s.
Proof.
  induction s as [| c s IH]; [reflexivity |].
  change (String c (s ++ EmptyString) = String c s). rewrite IH. reflexivity.
Qed.

Lemma append_snoc (s e : string) (c : ascii) :
  (s ++ String c EmptyString) ++ e = s ++ String c e.
Proof.
  induction s as [| d s IH]; [reflexivity |].
  change (String d ((s ++ String c EmptyString) ++ e) = String d (s ++ String c e)).
  rewrite IH. reflexivity.
Qed.

Lemma split_from_dot_free (seg e : string) :
  dot_free e = true -> Str.split_from Str.dot seg e = [seg ++ e].
Proof.
  revert seg. induction e as [| c e IH]; intros seg H; simpl.
  - rewrite append_empty. reflexivity.
  - simpl in H. apply andb_true_iff in H as [Hc He]. apply negb_true_iff in Hc.
    rewrite Hc, (IH _ He), append_snoc. reflexivity.
Qed.

Lemma split_from_last (pre e seg : string) :
  dot_free e = true ->
  last (Str.split_from Str.dot seg (pre ++ String Str.dot e)) = Some e.
Proof.
  intros He. revert seg. induction pre as [| c pre IH]; intros seg; simpl.
  - rewrite (split_from_dot_free EmptyString e He). reflexivity.
  - destruct (Ascii.eqb c Str.dot).
    + specialize (IH EmptyString).
      destruct (Str.split_from Str.dot EmptyString (pre ++ String Str.dot e)); [discriminate |].
      exact IH.
    + apply IH.
Qed.

Lemma extension_of_matching_path (p e : string) :
  dot_free e = true ->
  Str.endsWith (Str.toLowerCase p) ("." ++ e) = true ->
  Str.pop (Str.split Str.dot (Str.toLowerCase p)) = Some e.
Proof.
  intros He H. apply endsWith_suffix in H as [pre Hpre].
  unfold Str.pop, Str.split. rewrite Hpre. apply (split_from_last pre e EmptyString He).
Qed.

Lemma set_prop_keeps (o : props) (k k' : string) (v : jsval) :
  is_Some (Js.get_prop o k') -> is_Some (Js.get_prop (Js.set_prop o k v) k').
Proof.
  induction o as [| [k0 v0] o IH]; simpl.
  - intros [x Hx]. discriminate.
  - destruct (String.eqb k0 k) eqn:Hk; simpl.
    + destruct (String.eqb k0 k'); eauto.
    + destruct (String.eqb k0 k'); eauto.
Qed.

Lemma spread_keeps (o : props) (src : jsval) (k' : string) :
  is_Some (Js.get_prop o k') -> is_Some (Js.get_prop (Js.spread o src) k').
Proof.
  destruct src as [| | | | | | | l]; simpl; try tauto.
  revert o. induction l as [| [k v] l IH]; intros o H; simpl; [exact H |].
  apply IH. apply set_prop_keeps. exact H.
Qed.

(** Whatever the options, the merged configuration has every key of
    [defaultConfig]. *)
Lemma compressionConfig_has_default (options : props) (k : string) :
  is_Some (Js.get_prop defaultConfig k) ->
  is_Some (Js.get_prop (compressionConfig options) k).
Proof.
  intros H. unfold compressionConfig.
  assert (Hstart : is_Some (Js.get_prop
            (Js.spread (Js.spread [] (JObj defaultConfig)) (JObj options)) k)).
  { apply spread_keeps. exact H. }
  revert Hstart.
  generalize (Js.spread (Js.spread [] (JObj defaultConfig)) (JObj options)) as acc.
  induction mergedFormats as [| f fs IH]; intros acc Hacc; simpl; [exact Hacc |].
  apply IH. apply set_prop_keeps. exact Hacc.
Qed.

Lemma alias_key_not_empty (e k : string) :
  getAliasForExtension e = Some k -> k <> EmptyString.
Proof.
  unfold getAliasForExtension, configAliases, getAliasForExtension_in.
  repeat match goal with
         | |- context [if ?b then _ else _] => destruct b
         end; intros H; try discriminate; injection H as <-; discriminate.
Qed.

(** A path that ends with a dot and [e], where [e] is a key of the
    defaults or an alias, resolves to a format. *)
Lemma matching_path_resolves (options : props) (p e : string) :
  dot_free e = true -> e <> EmptyString ->
  Str.endsWith (Str.toLowerCase p) ("." ++ e) = true ->
  is_Some (Js.get_prop defaultConfig e) \/ is_Some (getAliasForExtension e) ->
  getUsedConfig (compressionConfig options) p <> JNull.
Proof.
  intros Hfree Hne Hends Hkey. unfold getUsedConfig.
  rewrite (extension_of_matching_path p e Hfree Hends). simpl default.
  destruct (in_config (compressionConfig options) e) eqn:Hin.
  - apply String.eqb_neq in Hne. rewrite Hne. discriminate.
  - destruct Hkey as [Hd | [k Hk]].
    + apply (compressionConfig_has_default options) in Hd.
      unfold in_config in Hin. rewrite bool_decide_eq_true_2 in Hin by exact Hd.
      discriminate.
    + rewrite Hk. pose proof (alias_key_not_empty e k Hk) as Hk'.
      apply String.eqb_neq in Hk'. rewrite Hk'. discriminate.
Qed.

(** A file whose format resolves to none matches no pattern of
    [processFile], unless it ends in .htm, .scss, .sass or .less. *)
Lemma unresolved_path_is_unmatched (options : props) (p : string) :
  getUsedConfig (compressionConfig options) p = JNull ->
  has_extension p ["htm"; "scss"; "sass"; "less"] = false ->
  branch_of p = BOther.
Proof.
  intros Hnone Hrest.
  unfold has_extension in Hrest. simpl existsb in Hrest.
  apply orb_false_iff in Hrest as [Hhtm Hrest].
  apply orb_false_iff in Hrest as [Hscss Hrest].
  apply orb_false_iff in Hrest as [Hsass Hrest].
  apply orb_false_iff in Hrest as [Hless _].
  assert (Hno : forall e, dot_free e = true -> e <> EmptyString ->
            is_Some (Js.get_prop defaultConfig e) \/ is_Some (getAliasForExtension e) ->
            Str.endsWith (Str.toLowerCase p) ("." ++ e) = false).
  { intros e Hfree Hne Hkey.
    destruct (Str.endsWith (Str.toLowerCase p) ("." ++ e)) eqn:He; [| reflexivity].
    exfalso. exact (matching_path_resolves options p e Hfree Hne He Hkey Hnone). }
  assert (Hdefault : forall e v, Js.get_prop defaultConfig e = Some v ->
            dot_free e = true -> e <> EmptyString ->
            Str.endsWith (Str.toLowerCase p) ("." ++ e) = false).
  { intros e v Hv Hfree Hne. apply Hno; eauto. }
  assert (Halias : forall e k, getAliasForExtension e = Some k ->
            dot_free e = true -> e <> EmptyString ->
            Str.endsWith (Str.toLowerCase p) ("." ++ e) = false).
  { intros e k Hk Hfree Hne. apply Hno; eauto. }
  unfold branch_of, has_extension. simpl existsb.
  rewrite (Halias "jpg" "jpeg"), (Halias "tif" "tiff"), (Halias "mjs" "js")
    by (reflexivity || discriminate).
  rewrite (Hdefault "jpeg" _ eq_refl), (Hdefault "png" _ eq_refl),
    (Hdefault "webp" _ eq_refl), (Hdefault "tiff" _ eq_refl),
    (Hdefault "avif" _ eq_refl), (Hdefault "heif" _ eq_refl),
    (Hdefault "html" _ eq_refl), (Hdefault "js" _ eq_refl),
    (Hdefault "svg" _ eq_refl), (Hdefault "css" _ eq_refl)
    by (reflexivity || discriminate).
  rewrite Hhtm, Hscss, Hsass, Hless. reflexivity.
Qed.

(** C6, as stated, fails: a page named page.htm resolves to no format,
    yet [processFile] matches its extension, minifies it with the html
    options and writes the result over it; the run counts it as
    processed, not as skipped. *)
Lemma htm_resolves_to_none_but_is_compressed :
  getUsedConfig (compressionConfig []) "/site/dist/page.htm" = JNull /\
  files Htm.disk !! "/site/dist/page.htm" = Some "<p> hi </p>" /\
  exists st,
    runBuild (Demo.parse_only (mkCache "1" ∅)) Demo.render Demo.hex_digest Demo.lib []
      "/site" ["/site/dist/page.htm"] Htm.disk = Ok st /\
    skippedFiles (totals st) = 0 /\
    processedFiles (totals st) = 1 /\
    files (world st) !! "/site/dist/page.htm" = Some "<p>hi</p>".
Proof.
  split; [vm_compute; reflexivity |]. split; [vm_compute; reflexivity |].
  eexists. split; [vm_compute; reflexivity |].
  repeat split; vm_compute; reflexivity.
Qed.

Section Unmatched.

Variable JSON_parse : Buffer -> option CompressionCache.
Variable JSON_stringify : CompressionCache -> Buffer.
Variable sha256 : Buffer -> string.
Variable lib : Adapters.
Variable options : props.

Local Abbreviation processFile := (processFile lib options).
Local Abbreviation handleCandidate := (handleCandidate sha256 lib options).
Local Abbreviation handleCandidates := (handleCandidates sha256 lib options).
Local Abbreviation cfg := (cfg options).
Local Abbreviation cacheEnabled := (cacheEnabled options).

Lemma unmatched_candidate (st : State) (p : string) (b : Buffer) :
  files (world st) !! p = Some b -> branch_of p = BOther ->
  (cacheEnabled = false ->
     handleCandidate st p =
       Ok (mkState (world st) (cacheManager st) (add_skipped (totals st)))) /\
  (cacheEnabled = true ->
   forall m, cacheManager st = Some m ->
     let looked := getCachedFile (world st) m p (sha256 b) (getUsedConfig cfg p) in
     snd looked = None ->
     files (fst (fst looked)) !! p = Some b ->
     handleCandidate st p =
       Ok (mkState (fst (fst looked)) (Some (snd (fst looked))) (add_skipped (totals st)))).
Proof.
  intros Hb Hbr. split.
  - intros Hen. unfold handleCandidate. rewrite Hen.
    rewrite (processFile_unmatched lib options st p b Hb Hbr). reflexivity.
  - intros Hen m Hm looked Hmiss Hstill.
    pose proof (handleCandidate_miss sha256 lib options st m p b Hen Hm Hb Hmiss) as Hstep.
    fold looked in Hstep. rewrite Hstep.
    rewrite (processFile_unmatched lib options
               (mkState (fst (fst looked)) (Some (snd (fst looked))) (totals st))
               p b Hstill Hbr).
    reflexivity.
Qed.

(** C6, amended. A candidate whose format resolves to none, that does not
    end in .htm, .scss, .sass or .less (extensions [processFile]
    compresses although the resolver knows no format for them), and that
    the cache does not serve, is counted as skipped and nothing else
    happens to it: whatever the compressors are, none is called, and the
    file is not written. Without the cache the whole state but the
    skipped count stays as it was; with it, the lookup that missed may
    have dropped a stale entry, and does nothing when the path has no
    entry. *)
Theorem unresolved_candidate_is_skipped (st : State) (p : string) (b : Buffer)
    (Hb : files (world st) !! p = Some b)
    (Hnone : getUsedConfig cfg p = JNull)
    (Hrest : has_extension p ["htm"; "scss"; "sass"; "less"] = false) :
  (cacheEnabled = false ->
     handleCandidate st p =
       Ok (mkState (world st) (cacheManager st) (add_skipped (totals st)))) /\
  (cacheEnabled = true ->
   forall m, cacheManager st = Some m ->
     let looked := getCachedFile (world st) m p (sha256 b) JNull in
     snd looked = None ->
     files (fst (fst looked)) !! p = Some b ->
     handleCandidate st p =
       Ok (mkState (fst (fst looked)) (Some (snd (fst looked))) (add_skipped (totals st))) /\
     (entries (manifest m) !! p = None -> looked = (world st, m, None))).
Proof.
  pose proof (unresolved_path_is_unmatched options p Hnone Hrest) as Hbr.
  destruct (unmatched_candidate st p b Hb Hbr) as [Hoff Hon].
  split; [exact Hoff |].
  intros Hen m Hm looked Hmiss Hstill. split.
  - specialize (Hon Hen m Hm). rewrite Hnone in Hon. exact (Hon Hmiss Hstill).
  - intros Hno. unfold looked, getCachedFile. rewrite Hno. reflexivity.
Qed.

(** *** The run without the cache *)

Lemma handleCandidate_disabled (st : State) (p : string) (b : Buffer) :
  cacheEnabled = false -> files (world st) !! p = Some b ->
  exists st',
    handleCandidate st p = Ok st' /\
    dirs (world st') = dirs (world st) /\
    cacheManager st' = cacheManager st /\
    (forall q, q <> p -> files (world st') !! q = files (world st) !! q) /\
    is_Some (files (world st') !! p) /\
    (branch_of p = BOther -> files (world st') !! p = files (world st) !! p).
Proof.
  intros Hen Hb. unfold handleCandidate. rewrite Hen.
  destruct (processFile_returns lib options st p b Hb) as (st1 & r & Hp).
  rewrite Hp. simpl.
  assert (Hplain : forall s, world (after_process_plain s r) = world s /\
                             cacheManager (after_process_plain s r) = cacheManager s).
  { intros s. unfold after_process_plain. destruct (processed r); auto. }
  destruct (Hplain st1) as [Hw Hm]. eexists. split; [reflexivity |].
  rewrite Hw, Hm.
  destruct (processFile_effect lib options st st1 p r Hp)
    as [(reason & Ho & ->) | (Ho & c & b0 & Hb0 & Hlt & ->)].
  - rewrite Hb. repeat split; eauto.
  - simpl. repeat split.
    + intros q Hq. apply lookup_insert_ne. congruence.
    + rewrite lookup_insert_eq. eauto.
    + intros Hbr. rewrite (processFile_unmatched lib options st p b Hb Hbr) in Hp.
      injection Hp as _ <-. discriminate.
Qed.

Lemma handleCandidates_disabled (candidates : list string) :
  cacheEnabled = false ->
  forall st,
  (forall c, c ∈ candidates -> is_Some (files (world st) !! c)) ->
  exists st',
    handleCandidates st candidates = Ok st' /\
    dirs (world st') = dirs (world st) /\
    cacheManager st' = cacheManager st /\
    (forall q, q ∉ candidates -> files (world st') !! q = files (world st) !! q) /\
    (forall q, branch_of q = BOther -> files (world st') !! q = files (world st) !! q).
Proof.
  intros Hen. induction candidates as [| c rest IH]; intros st Hall.
  - exists st. simpl. auto.
  - destruct (Hall c) as [b Hb]; [left |].
    destruct (handleCandidate_disabled st c b Hen Hb)
      as (st1 & H1 & Hd1 & Hm1 & Hf1 & Hs1 & Hu1).
    destruct (IH st1) as (st' & H' & Hd' & Hm' & Hf' & Hu').
    { intros q Hq. destruct (decide (q = c)) as [-> | Hne]; [exact Hs1 |].
      rewrite (Hf1 q Hne). apply Hall. right. exact Hq. }
    exists st'. simpl. rewrite H1. simpl. split; [exact H' |].
    split; [congruence |]. split; [congruence |]. split.
    + intros q Hq. rewrite Hf'; [apply Hf1 |]; intros Hin; apply Hq.
      * rewrite Hin. left.
      * right. exact Hin.
    + intros q Hq. rewrite (Hu' q Hq).
      destruct (decide (q = c)) as [-> | Hne]; [exact (Hu1 Hq) | exact (Hf1 q Hne)].
Qed.

(** C8. A build with the cache disabled, over candidates that are on
    disk, runs to its end without creating a directory (the cache
    directory is not created) and without constructing a cache manager;
    the only files it writes are candidates it compresses, and no file
    named manifest.json, in whatever directory, is written. *)
Theorem cache_disabled_writes_no_cache (root : string) (candidates : list string)
    (w : World)
    (Hoff : cacheEnabled = false)
    (Hall : forall c, c ∈ candidates -> is_Some (files w !! c)) :
  exists st,
    runBuild JSON_parse JSON_stringify sha256 lib options root candidates w = Ok st /\
    cacheManager st = None /\
    dirs (world st) = dirs w /\
    (forall q, q ∉ candidates -> files (world st) !! q = files w !! q) /\
    (forall dir, files (world st) !! Str.path_join dir "manifest.json"
                 = files w !! Str.path_join dir "manifest.json").
Proof.
  destruct (handleCandidates_disabled candidates Hoff (initialState w) Hall)
    as (st & Hrun & Hd & Hm & Hf & Hu).
  exists st. unfold runBuild, configDone, buildDone. rewrite Hoff. simpl.
  rewrite Hrun. simpl.
  repeat split; try assumption.
  intros dir. apply Hu. apply branch_of_manifest.
Qed.

End Unmatched.

(** A text file, for which neither the resolver nor [processFile] has
    anything, with the cache enabled and empty. *)
Lemma unresolved_candidate_is_skipped_witness :
  handleCandidate Demo.hex_digest Demo.lib [] Htm.ready "/site/dist/notes.txt" =
    Ok (mkState (world Htm.ready) (cacheManager Htm.ready) (add_skipped initialTotals)).
Proof.
  assert (Hb : files (world Htm.ready) !! "/site/dist/notes.txt" = Some "to do")
    by (vm_compute; reflexivity).
  assert (Hnone : getUsedConfig (cfg []) "/site/dist/notes.txt" = JNull)
    by (vm_compute; reflexivity).
  assert (Hrest : has_extension "/site/dist/notes.txt" ["htm"; "scss"; "sass"; "less"] = false)
    by (vm_compute; reflexivity).
  destruct (unresolved_candidate_is_skipped Demo.hex_digest Demo.lib [] Htm.ready
              "/site/dist/notes.txt" "to do" Hb Hnone Hrest) as [_ H].
  assert (Hen : cacheEnabled [] = true) by (vm_compute; reflexivity).
  destruct (H Hen (newManager Demo.cacheRoot) eq_refl eq_refl Hb) as [Hstep _].
  exact Hstep.
Defined.

(** A build of two style sheets with [cache: { enabled: false }]. *)
Lemma cache_disabled_writes_no_cache_witness :
  exists st,
    runBuild (Demo.parse_only (mkCache "1" ∅)) Demo.render Demo.hex_digest Demo.lib
      [("cache", JObj [("enabled", JBool false)])]
      "/site" ["/site/dist/a.css"; "/site/dist/b.css"] NonAscii.disk = Ok st /\
    cacheManager st = None /\
    dirs (world st) = dirs NonAscii.disk /\
    (forall q, q ∉ ["/site/dist/a.css"; "/site/dist/b.css"] ->
       files (world st) !! q = files NonAscii.disk !! q) /\
    (forall dir, files (world st) !! Str.path_join dir "manifest.json"
                 = files NonAscii.disk !! Str.path_join dir "manifest.json").
Proof.
  apply cache_disabled_writes_no_cache.
  - vm_compute. reflexivity.
  - intros c Hc.
    apply elem_of_cons in Hc as [-> | Hc]; [vm_compute; eauto |].
    apply elem_of_cons in Hc as [-> | Hc]; [vm_compute; eauto |].
    apply elem_of_nil in Hc. contradiction.
Defined.

(** ** What the first build leaves for the second *)

Lemma getCachedFile_cacheDir (w : World) (m : CompressionCacheManagerImpl)
    (p h : string) (s : UsedFormatConfig) :
  cacheDir (snd (fst (getCachedFile w m p h s))) = cacheDir m.
Proof.
  unfold getCachedFile.
  destruct (entries (manifest m) !! p) as [e |] eqn:He; simpl; [| reflexivity].
  destruct (negb (String.eqb (sourceHash e) h)).
  { rewrite (invalidate_present w m p e He). reflexivity. }
  destruct (settings_mismatch (settings e) s).
  { rewrite (invalidate_present w m p e He). reflexivity. }
  destruct (Fs.exists_path w (compressedPath e)); reflexivity.
Qed.

Section FirstBuild.

Variable sha256 : Buffer -> string.
Variable lib : Adapters.
Variable options : props.

Local Abbreviation processFile := (processFile lib options).
Local Abbreviation handleCandidate := (handleCandidate sha256 lib options).
Local Abbreviation cfg := (cfg options).
Local Abbreviation cacheEnabled := (cacheEnabled options).

Lemma processFile_usedConfig (st st' : State) (p : string) (r : FileResult) :
  processFile st p = Ok (st', r) -> usedConfig r = getUsedConfig cfg p.
Proof.
  unfold processFile, Fs.readFileSync.
  destruct (files (world st) !! p) as [b |]; simpl; [| discriminate].
  intros H. injection H as H.
  unfold process_body, try_catch in H. cbv beta zeta in H.
  repeat match type of H with
         | context [match ?x with _ => _ end] =>
             lazymatch x with
             | context [match _ with _ => _ end] => fail
             | _ => destruct x eqn:?
             end
         end;
    injection H as _ <-; reflexivity.
Qed.

(** A candidate the cache does not serve and whose compressed result is
    accepted is counted as processed and cached: its entry records the
    hash of the bytes the build read, and the artifact holds the bytes
    the build wrote. The entry is therefore valid for the original bytes,
    not for the ones now in the file. *)
Lemma processed_candidate_is_cached (st st1 : State) (m : CompressionCacheManagerImpl)
    (p : string) (b : Buffer) (r : FileResult) :
  cacheEnabled = true -> cacheManager st = Some m ->
  files (world st) !! p = Some b ->
  let looked := getCachedFile (world st) m p (sha256 b) (getUsedConfig cfg p) in
  let st0 := mkState (fst (fst looked)) (Some (snd (fst looked))) (totals st) in
  snd looked = None ->
  processFile st0 p = Ok (st1, r) ->
  outcome r = RProcessed ->
  exists st' m' e c,
    handleCandidate st p = Ok st' /\
    cacheManager st' = Some m' /\
    processedFiles (totals st') = processedFiles (totals st) + 1 /\
    entries (manifest m') !! p = Some e /\
    sourceHash e = sha256 b /\
    settings e = getUsedConfig cfg p /\
    compressedPath e = cachedFilePath m p (sha256 b) /\
    content_length c < Fs.size b /\
    files (world st') !! compressedPath e = Some (content_bytes c) /\
    files (world st') !! p = Some (content_bytes c).
Proof.
  intros Hen Hm Hb looked st0 Hmiss Hp Ho.
  pose proof (handleCandidate_miss sha256 lib options st m p b Hen Hm Hb Hmiss) as Hstep.
  fold looked in Hstep. fold st0 in Hstep. rewrite Hp in Hstep. simpl in Hstep.
  unfold after_process_cached in Hstep. rewrite Ho in Hstep.
  pose proof (processFile_usedConfig st0 st1 p r Hp) as Hu.
  destruct (processFile_effect lib options st0 st1 p r Hp)
    as [(reason & Hf & _) | (_ & c & b0 & Hb0 & Hlt & ->)];
    [rewrite Hf in Ho; discriminate |].
  assert (b0 = b) as ->.
  { apply (getCachedFile_only_unlinks (world st) m p (sha256 b)
             (getUsedConfig cfg p) p b0) in Hb0. congruence. }
  unfold cache_and_count, Fs.readFileSync in Hstep. simpl in Hstep.
  rewrite lookup_insert_eq in Hstep. simpl in Hstep.
  eexists _, _, _, c. split; [exact Hstep |]. simpl.
  split; [reflexivity |]. split; [reflexivity |].
  split; [apply lookup_insert_eq |]. simpl.
  split; [reflexivity |]. split; [exact Hu |].
  split; [unfold cachedFilePath, looked; rewrite getCachedFile_cacheDir; reflexivity |].
  split; [exact Hlt |]. split; [apply lookup_insert_eq |].
  destruct (decide (cachedFilePath (snd (fst looked)) p (sha256 b) = p)) as [-> | Hne].
  - apply lookup_insert_eq.
  - rewrite lookup_insert_ne by exact Hne. apply lookup_insert_eq.
Qed.

(** Once the build output is regenerated with the bytes the build read,
    the entry the build stored is valid for the file again. *)
Lemma regenerated_candidate_has_valid_entry (st st1 : State)
    (m : CompressionCacheManagerImpl) (p : string) (b : Buffer) (r : FileResult) :
  cacheEnabled = true -> cacheManager st = Some m ->
  files (world st) !! p = Some b ->
  let looked := getCachedFile (world st) m p (sha256 b) (getUsedConfig cfg p) in
  let st0 := mkState (fst (fst looked)) (Some (snd (fst looked))) (totals st) in
  snd looked = None ->
  processFile st0 p = Ok (st1, r) ->
  outcome r = RProcessed ->
  cachedFilePath m p (sha256 b) <> p ->
  exists st' m',
    handleCandidate st p = Ok st' /\
    cacheManager st' = Some m' /\
    valid_entry sha256 options (Fs.writeFileSync (world st') p b) m' p.
Proof.
  intros Hen Hm Hb looked st0 Hmiss Hp Ho Hne.
  destruct (processed_candidate_is_cached st st1 m p b r Hen Hm Hb Hmiss Hp Ho)
    as (st' & m' & e & c & Hstep & Hm' & _ & He & Hh & Hs & Hpath & _ & Ha & _).
  exists st', m'. split; [exact Hstep |]. split; [exact Hm' |].
  exists b, e, (content_bytes c). simpl.
  split; [apply lookup_insert_eq |]. split; [exact He |]. split; [exact Hh |].
  split; [rewrite Hs; reflexivity |].
  rewrite lookup_insert_ne by (rewrite Hpath; congruence). exact Ha.
Qed.

End FirstBuild.

(** ** Running the build a second time *)

Section Rerun.

Variable JSON_stringify : CompressionCache -> Buffer.
Variable sha256 : Buffer -> string.
Variable lib : Adapters.
Variable options : props.

Local Abbreviation processFile := (processFile lib options).
Local Abbreviation handleCandidate := (handleCandidate sha256 lib options).
Local Abbreviation handleCandidates := (handleCandidates sha256 lib options).
Local Abbreviation buildDone := (buildDone JSON_stringify sha256 lib options).
Local Abbreviation cfg := (cfg options).
Local Abbreviation cacheEnabled := (cacheEnabled options).
Local Abbreviation valid_entry := (valid_entry sha256 options).

Lemma handleCandidate_hit (st : State) (m : CompressionCacheManagerImpl)
    (p : string) (b a : Buffer) (e : CacheEntry) :
  cacheEnabled = true -> cacheManager st = Some m ->
  files (world st) !! p = Some b ->
  entries (manifest m) !! p = Some e ->
  sourceHash e = sha256 b ->
  Js.stringify (settings e) = Js.stringify (getUsedConfig cfg p) ->
  files (world st) !! compressedPath e = Some a ->
  handleCandidate st p =
    Ok (mkState (Fs.writeFileSync (world st) p a) (Some m) (add_hit (totals st) e)).
Proof.
  intros Hen Hm Hb He Hh Hs Ha.
  assert (Hx : Fs.exists_path (world st) (compressedPath e) = true).
  { unfold Fs.exists_path. rewrite Ha. rewrite bool_decide_eq_true_2 by eauto. reflexivity. }
  unfold handleCandidate, Fs.readFileSync. rewrite Hen, Hb. simpl. rewrite Hm.
  rewrite (getCachedFile_matching (world st) m p (sha256 b) (getUsedConfig cfg p) e He Hh Hs).
  rewrite Hx. simpl. rewrite Ha. reflexivity.
Qed.



End Rerun.


(** The second build of the regenerated site starts, after
    [astro:config:done], in the state [TwoRuns.loaded]. *)
Example regenerated_site_loads_manifest :
  configDone (Demo.parse_only (manifest TwoRuns.manager1)) Demo.render []
    "/site" (initialState TwoRuns.regenerated) = Ok TwoRuns.loaded.
Proof. vm_compute. reflexivity. Qed.


(** * Further properties of the code *)

(** ** The cache manager: lookups, stores and the manifest file *)

(** Storing and looking up. A lookup with the hash and the settings an
    entry was just stored with returns that entry and changes nothing; a
    lookup with another hash removes the entry and unlinks the artifact
    that was just written. *)
Theorem saveToCache_then_getCachedFile (w : World) (m : CompressionCacheManagerImpl)
    (p h : string) (n : Z) (c : Buffer) (s : UsedFormatConfig) :
  let a := saveToCache w m p h n c s in
  let e := mkEntry h (cachedFilePath m p h) (clock w) s n (Fs.size c) in
  getCachedFile (fst a) (snd a) p h s = (fst a, snd a, Some e) /\
  (forall h', h' <> h ->
     getCachedFile (fst a) (snd a) p h' s =
       (Fs.unlink (fst a) (cachedFilePath m p h),
        with_entries (snd a) (delete p (entries (manifest (snd a)))), None) /\
     files (Fs.unlink (fst a) (cachedFilePath m p h)) !! cachedFilePath m p h = None).
Proof.
  intros a e.
  assert (He : entries (manifest (snd a)) !! p = Some e) by apply saveToCache_entry.
  split.
  - rewrite (getCachedFile_matching (fst a) (snd a) p h s e He eq_refl eq_refl).
    pose proof (saveToCache_file w m p h n c s) as Hfile. fold a in Hfile.
    unfold Fs.exists_path. unfold e at 1. simpl compressedPath.
    rewrite Hfile. rewrite bool_decide_eq_true_2 by eauto. reflexivity.
  - intros h' Hh. split.
    + apply (getCachedFile_stale (fst a) (snd a) p h' s e He). left. simpl. congruence.
    + simpl. apply lookup_delete_eq.
Qed.


(** Asking again changes nothing: a second lookup with the same arguments,
    in the state the first one left, gives the same answer and leaves that
    state as it is. *)
Theorem getCachedFile_idempotent (w : World) (m : CompressionCacheManagerImpl)
    (p h : string) (s : UsedFormatConfig) :
  let r := getCachedFile w m p h s in
  getCachedFile (fst (fst r)) (snd (fst r)) p h s = r.
Proof.
  intros r. destruct (snd r) as [e |] eqn:Hr.
  - destruct (getCachedFile_hit w m p h s e Hr) as (Heq & _).
    unfold r. rewrite Heq. simpl. exact Heq.
  - pose proof (getCachedFile_miss_no_entry w m p h s Hr) as Hnone.
    fold r in Hnone. rewrite (getCachedFile_absent _ _ p h s Hnone).
    destruct r as [[w' m'] o]. simpl in Hr. subst o. reflexivity.
Qed.

(** What a lookup leaves alone: the entries of the other paths, the
    directories, the clock and the cache directory; it writes no file,
    and the only file it can remove is the artifact of the entry it looked
    at. *)
Theorem getCachedFile_frame (w : World) (m : CompressionCacheManagerImpl)
    (p h : string) (s : UsedFormatConfig) :
  let r := getCachedFile w m p h s in
  (forall q, q <> p ->
     entries (manifest (snd (fst r))) !! q = entries (manifest m) !! q) /\
  dirs (fst (fst r)) = dirs w /\
  clock (fst (fst r)) = clock w /\
  cacheDir (snd (fst r)) = cacheDir m /\
  (forall f, files (fst (fst r)) !! f = files w !! f \/
     (files (fst (fst r)) !! f = None /\
      exists e, entries (manifest m) !! p = Some e /\ f = compressedPath e)).
Proof.
  intros r. unfold r, getCachedFile.
  destruct (entries (manifest m) !! p) as [e |] eqn:He; simpl.
  2:{ repeat split; auto. }
  assert (Hinv : forall x,
    x = (Fs.unlink w (compressedPath e), with_entries m (delete p (entries (manifest m)))) ->
    (forall q, q <> p -> entries (manifest (snd x)) !! q = entries (manifest m) !! q) /\
    dirs (fst x) = dirs w /\ clock (fst x) = clock w /\ cacheDir (snd x) = cacheDir m /\
    (forall f, files (fst x) !! f = files w !! f \/
       (files (fst x) !! f = None /\ exists e0, Some e = Some e0 /\ f = compressedPath e0))).
  { intros x ->. simpl. split; [| repeat split].
    - intros q Hq. apply lookup_delete_ne. congruence.
    - intros f. destruct (decide (f = compressedPath e)) as [-> | Hne].
      + right. rewrite lookup_delete_eq. eauto.
      + left. apply lookup_delete_ne. congruence. }
  destruct (negb (String.eqb (sourceHash e) h)).
  { rewrite (invalidate_present w m p e He). exact (Hinv _ eq_refl). }
  destruct (settings_mismatch (settings e) s).
  { rewrite (invalidate_present w m p e He). exact (Hinv _ eq_refl). }
  destruct (Fs.exists_path w (compressedPath e)); simpl.
  - repeat split; auto.
  - split; [| repeat split; auto].
    intros q Hq. apply lookup_delete_ne. congruence.
Qed.

(** After an invalidation the path has no entry: a lookup returns absent
    and changes nothing, a second invalidation throws, and the entries
    of the other paths are the ones that were there. *)
Theorem invalidateCache_then_absent (w w' : World) (m m' : CompressionCacheManagerImpl)
    (p h : string) (s : UsedFormatConfig)
    (Hinv : invalidateCache w m (Some p) = Ok (w', m')) :
  getCachedFile w' m' p h s = (w', m', None) /\
  invalidateCache w' m' (Some p) = Throw TypeError /\
  (forall q, q <> p -> entries (manifest m') !! q = entries (manifest m) !! q) /\
  cacheDir m' = cacheDir m.
Proof.
  unfold invalidateCache in Hinv. simpl property_key in Hinv.
  destruct (entries (manifest m) !! p) as [e |] eqn:He; [| discriminate].
  injection Hinv as <- <-.
  assert (Hnone : entries (manifest (with_entries m (delete p (entries (manifest m))))) !! p
                  = None) by (simpl; apply lookup_delete_eq).
  split; [apply getCachedFile_absent; exact Hnone |].
  split; [unfold invalidateCache; simpl property_key; rewrite Hnone; reflexivity |].
  split; [| reflexivity].
  intros q Hq. simpl. apply lookup_delete_ne. congruence.
Qed.

(** The entry of a.css of [KeyOrder], invalidated. *)
Lemma invalidateCache_then_absent_witness :
  getCachedFile (Fs.unlink KeyOrder.disk KeyOrder.artifact)
      (with_entries KeyOrder.manager ∅) "/site/dist/a.css" "6162" KeyOrder.first
    = (Fs.unlink KeyOrder.disk KeyOrder.artifact, with_entries KeyOrder.manager ∅, None) /\
  invalidateCache (Fs.unlink KeyOrder.disk KeyOrder.artifact)
      (with_entries KeyOrder.manager ∅) (Some "/site/dist/a.css") = Throw TypeError /\
  (forall q, q <> "/site/dist/a.css" ->
     entries (manifest (with_entries KeyOrder.manager ∅)) !! q
       = entries (manifest KeyOrder.manager) !! q) /\
  cacheDir (with_entries KeyOrder.manager ∅) = cacheDir KeyOrder.manager.
Proof.
  apply (invalidateCache_then_absent KeyOrder.disk _ KeyOrder.manager _
           "/site/dist/a.css" "6162" KeyOrder.first).
  vm_compute. reflexivity.
Defined.

Lemma append_cancel_l (a x y : string) : a ++ x = a ++ y -> x = y.
Proof.
  induction a as [| c a IH]; intros H; [exact H |].
  apply IH. change (String c (a ++ x) = String c (a ++ y)) in H. congruence.
Qed.

Lemma append_cancel_r (x y t : string) : x ++ t = y ++ t -> x = y.
Proof.
  revert y. induction x as [| c x IH]; intros y H.
  - destruct y as [| d y]; [reflexivity |].
    apply (f_equal String.length) in H. rewrite !length_app in H. simpl in H. lia.
  - destruct y as [| d y].
    + apply (f_equal String.length) in H. rewrite !length_app in H. simpl in H. lia.
    + change (String c (x ++ t) = String d (y ++ t)) in H. injection H as -> H.
      rewrite (IH y H). reflexivity.
Qed.

(** Artifacts of one path under two hashes are two files. *)
Lemma cachedFilePath_inj (m : CompressionCacheManagerImpl) (p h1 h2 : string) :
  cachedFilePath m p h1 = cachedFilePath m p h2 -> h1 = h2.
Proof.
  unfold cachedFilePath, Str.path_join. intros H.
  apply append_cancel_l in H. apply append_cancel_l in H.
  apply append_cancel_r in H. exact H.
Qed.

(** What [saveToCache] touches: it writes the artifact and sets the entry
    of the path, and nothing else: every other file is as it was (so the
    manifest file is not written, and the artifact an overwritten entry
    referred to under another hash stays on disk), no file and no other
    entry is removed, and no directory is created. *)
Theorem saveToCache_frame (w : World) (m : CompressionCacheManagerImpl)
    (p h : string) (n : Z) (c : Buffer) (s : UsedFormatConfig) :
  let a := saveToCache w m p h n c s in
  (forall f, f <> cachedFilePath m p h -> files (fst a) !! f = files w !! f) /\
  (forall q, q <> p -> entries (manifest (snd a)) !! q = entries (manifest m) !! q) /\
  dom (entries (manifest (snd a))) = {[ p ]} ∪ dom (entries (manifest m)) /\
  dirs (fst a) = dirs w /\
  cacheDir (snd a) = cacheDir m /\
  (h ++ "." ++ cache_extension p <> "manifest.json" ->
     files (fst a) !! manifestPath m = files w !! manifestPath m) /\
  (forall e, entries (manifest m) !! p = Some e ->
     sourceHash e <> h -> compressedPath e = cachedFilePath m p (sourceHash e) ->
     files (fst a) !! compressedPath e = files w !! compressedPath e).
Proof.
  intros a. unfold a, saveToCache. simpl.
  split; [intros f Hf; apply lookup_insert_ne; congruence |].
  split; [intros q Hq; apply lookup_insert_ne; congruence |].
  split; [apply dom_insert_L |]. split; [reflexivity |]. split; [reflexivity |]. split.
  - intros Hne. apply lookup_insert_ne. unfold cachedFilePath, manifestPath, Str.path_join.
    intros H. apply append_cancel_l in H. apply append_cancel_l in H. contradiction.
  - intros e He Hh Hpath. apply lookup_insert_ne. rewrite Hpath.
    intros H. apply cachedFilePath_inj in H. congruence.
Qed.

(** The manifest file round trip: when the reader returns a manifest for
    the text the writer makes of it, [loadManifest], on any manager of the
    same cache directory, gets back the manager [saveManifest] wrote. *)
Theorem saveManifest_then_loadManifest (JSON_parse : Buffer -> option CompressionCache)
    (JSON_stringify : CompressionCache -> Buffer)
    (w : World) (m m0 : CompressionCacheManagerImpl)
    (Hcodec : JSON_parse (JSON_stringify (manifest m)) = Some (manifest m))
    (Hdir : cacheDir m0 = cacheDir m) :
  loadManifest JSON_parse (saveManifest JSON_stringify w m) m0 = Ok m.
Proof.
  unfold loadManifest, saveManifest, Fs.readFileSync, manifestPath. rewrite Hdir. simpl.
  rewrite lookup_insert_eq. simpl. rewrite Hcodec. destruct m. reflexivity.
Qed.

(** The manifest of [KeyOrder], written and read back by a new manager. *)
Lemma saveManifest_then_loadManifest_witness :
  loadManifest (Demo.parse_only (manifest KeyOrder.manager))
    (saveManifest Demo.render KeyOrder.disk KeyOrder.manager) (newManager Demo.cacheRoot)
  = Ok KeyOrder.manager.
Proof.
  apply (saveManifest_then_loadManifest (Demo.parse_only (manifest KeyOrder.manager))
           Demo.render KeyOrder.disk KeyOrder.manager (newManager Demo.cacheRoot)).
  - vm_compute. reflexivity.
  - reflexivity.
Defined.

(** Initializing twice is initializing once: when the reader returns the
    manager's manifest for the text the writer makes of it, a second
    [initialize], in the state the first one left, changes nothing. *)
Theorem initialize_twice (JSON_parse : Buffer -> option CompressionCache)
    (JSON_stringify : CompressionCache -> Buffer)
    (w w1 : World) (m m1 : CompressionCacheManagerImpl)
    (Hcodec : JSON_parse (JSON_stringify (manifest m)) = Some (manifest m))
    (Hfirst : initialize JSON_parse JSON_stringify w m = Ok (w1, m1)) :
  initialize JSON_parse JSON_stringify w1 m1 = Ok (w1, m1).
Proof.
  unfold initialize, loadManifest, Fs.readFileSync in *.
  assert (Hdirs : forall d (D : gset string), {[d]} ∪ ({[d]} ∪ D) = {[d]} ∪ D).
  { intros d D. rewrite (assoc_L (∪)), union_idemp_L. reflexivity. }
  simpl files in Hfirst.
  destruct (files w !! manifestPath m) as [text |] eqn:Hf; simpl in Hfirst.
  - destruct (JSON_parse text) as [c |] eqn:Hp; simpl in Hfirst.
    + injection Hfirst as <- <-. simpl. unfold manifestPath in *. simpl.
      rewrite Hf. simpl. rewrite Hp. simpl. unfold Fs.mkdirSync. simpl.
      rewrite Hdirs. reflexivity.
    + injection Hfirst as <- <-. simpl. rewrite lookup_insert_eq. simpl.
      rewrite Hcodec. simpl. unfold saveManifest, Fs.writeFileSync, Fs.mkdirSync. simpl.
      rewrite Hdirs. destruct m. reflexivity.
  - injection Hfirst as <- <-. simpl. rewrite lookup_insert_eq. simpl.
    rewrite Hcodec. simpl. unfold saveManifest, Fs.writeFileSync, Fs.mkdirSync. simpl.
    rewrite Hdirs. destruct m. reflexivity.
Qed.

(** A new manager on an empty disk. *)
Lemma initialize_twice_witness :
  initialize (Demo.parse_only (mkCache "1" ∅)) Demo.render
    (saveManifest Demo.render (Fs.mkdirSync (mkWorld ∅ ∅ 1000) Demo.cacheRoot)
       (newManager Demo.cacheRoot))
    (newManager Demo.cacheRoot)
  = Ok (saveManifest Demo.render (Fs.mkdirSync (mkWorld ∅ ∅ 1000) Demo.cacheRoot)
          (newManager Demo.cacheRoot),
        newManager Demo.cacheRoot).
Proof.
  apply (initialize_twice (Demo.parse_only (mkCache "1" ∅)) Demo.render
           (mkWorld ∅ ∅ 1000) _ (newManager Demo.cacheRoot) _).
  - vm_compute. reflexivity.
  - vm_compute. reflexivity.
Defined.

(** ** The options *)

Lemma get_prop_set_prop_eq (o : props) (k : string) (v : jsval) :
  Js.get_prop (Js.set_prop o k v) k = Some v.
Proof.
  induction o as [| [k0 v0] o IH]; simpl.
  - rewrite String.eqb_refl. reflexivity.
  - destruct (String.eqb k0 k) eqn:Hk; simpl; rewrite Hk; [reflexivity | exact IH].
Qed.

Lemma get_prop_set_prop_ne (o : props) (k k' : string) (v : jsval) :
  k <> k' -> Js.get_prop (Js.set_prop o k v) k' = Js.get_prop o k'.
Proof.
  intros Hne. induction o as [| [k0 v0] o IH]; simpl.
  - apply String.eqb_neq in Hne. rewrite Hne. reflexivity.
  - destruct (String.eqb k0 k) eqn:Hk; simpl.
    + apply String.eqb_eq in Hk. subst k0.
      apply String.eqb_neq in Hne. rewrite Hne. reflexivity.
    + destruct (String.eqb k0 k'); [reflexivity | exact IH].
Qed.

Lemma get_prop_app (l1 l2 : props) (k : string) :
  Js.get_prop (l1 ++ l2)%list k =
    match Js.get_prop l1 k with
    | Some v => Some v
    | None => Js.get_prop l2 k
    end.
Proof.
  induction l1 as [| [k0 v0] l1 IH]; simpl; [reflexivity |].
  destruct (String.eqb k0 k); [reflexivity | exact IH].
Qed.

(** The spread syntax: a key of the source takes the value of its last
    occurrence there, any other key keeps the value it had. *)
Lemma spread_lookup (o : props) (src : jsval) (k : string) :
  Js.get_prop (Js.spread o src) k =
    match last_binding (props_of src) k with
    | Some v => Some v
    | None => Js.get_prop o k
    end.
Proof.
  unfold last_binding.
  destruct src as [| | | | | | | l]; simpl; try reflexivity.
  revert o. induction l as [| [k0 v0] l IH]; intros o; simpl; [reflexivity |].
  rewrite IH, get_prop_app. simpl.
  destruct (Js.get_prop (rev l) k); [reflexivity |].
  destruct (String.eqb k0 k) eqn:Hk.
  - apply String.eqb_eq in Hk. subst k0. apply get_prop_set_prop_eq.
  - apply get_prop_set_prop_ne. apply String.eqb_neq. exact Hk.
Qed.

Lemma merge_formats_lookup (g : string -> jsval) (ks : list string) (acc : props)
    (k : string) :
  Js.get_prop (fold_left (fun a f => Js.set_prop a f (g f)) ks acc) k =
    if existsb (String.eqb k) ks then Some (g k) else Js.get_prop acc k.
Proof.
  revert acc. induction ks as [| f ks IH]; intros acc; simpl; [reflexivity |].
  rewrite IH. destruct (existsb (String.eqb k) ks); [rewrite orb_true_r; reflexivity |].
  rewrite orb_false_r. destruct (String.eqb k f) eqn:Hk.
  - apply String.eqb_eq in Hk. subst f. apply get_prop_set_prop_eq.
  - apply get_prop_set_prop_ne. apply String.eqb_neq. rewrite String.eqb_sym. exact Hk.
Qed.

(** A key outside the eight merged formats is taken whole. *)
Lemma compressionConfig_unmerged (options : props) (k : string) :
  ~ In k mergedFormats ->
  Js.get_prop (compressionConfig options) k =
    match last_binding options k with
    | Some v => Some v
    | None => Js.get_prop defaultConfig k
    end.
Proof.
  assert (Hdefault : Js.spread [] (JObj defaultConfig) = defaultConfig)
    by (vm_compute; reflexivity).
  intros Hk. unfold compressionConfig. rewrite merge_formats_lookup.
  replace (existsb (String.eqb k) mergedFormats) with false.
  - rewrite spread_lookup, Hdefault. reflexivity.
  - symmetry. apply not_true_is_false. intros H. apply existsb_exists in H as (f & Hf & Heq).
    apply String.eqb_eq in Heq. subst f. contradiction.
Qed.

(** How [GabAstroCompress] merges its options with the defaults. For png,
    jpeg, webp, avif, heif, html, js and svg the merged value is an object
    in which each key has the value the options give it for that format
    and, failing that, the default's. Every other key (css, cache, jxl,
    tiff, gif, or a key the defaults do not have) has the value the
    options give it, taken whole, and the default's when the options do
    not mention it. *)
Theorem compressionConfig_lookup (options : props) :
  (forall f, In f mergedFormats ->
     exists merged,
       Js.get_prop (compressionConfig options) f = Some (JObj merged) /\
       forall k,
         Js.get_prop merged k =
           match last_binding (props_of (Js.get (JObj options) f)) k with
           | Some v => Some v
           | None => last_binding (props_of (Js.get (JObj defaultConfig) f)) k
           end) /\
  (forall k, ~ In k mergedFormats ->
     Js.get_prop (compressionConfig options) k =
       match last_binding options k with
       | Some v => Some v
       | None => Js.get_prop defaultConfig k
       end).
Proof.
  split.
  - intros f Hf. eexists. unfold compressionConfig. rewrite merge_formats_lookup.
    replace (existsb (String.eqb f) mergedFormats) with true.
    + split; [reflexivity |]. intros k. rewrite !spread_lookup.
      destruct (last_binding (props_of (Js.get (JObj options) f)) k); [reflexivity |].
      destruct (last_binding (props_of (Js.get (JObj defaultConfig) f)) k); reflexivity.
    + symmetry. apply existsb_exists. exists f. split; [exact Hf | apply String.eqb_refl].
  - intros k Hk. apply compressionConfig_unmerged. exact Hk.
Qed.

(** The cache is on unless the options say otherwise: [cache.enabled] of
    the merged options is true when the options have no cache key, and is
    the truth value of [enabled] in the cache value they give when they
    have one (so [cache: {}] turns the cache off). The directory name is
    then the [cacheDir] they give, and the default one when they give none
    or an empty one. *)
Theorem cache_options (options : props) :
  cacheEnabled options =
    match last_binding options "cache" with
    | Some v => Js.truthy (Js.get v "enabled")
    | None => true
    end /\
  (last_binding options "cache" = None -> cacheDirName options = Ok defaultCacheDir) /\
  (forall v, last_binding options "cache" = Some v ->
     cacheDirName options =
       match Js.get v "cacheDir" with
       | JStr d => if String.eqb d EmptyString then Ok defaultCacheDir else Ok d
       | x => if Js.truthy x then Throw TypeError else Ok defaultCacheDir
       end).
Proof.
  assert (Hcache : Js.get_prop (compressionConfig options) "cache" =
            match last_binding options "cache" with
            | Some v => Some v
            | None => Js.get_prop defaultConfig "cache"
            end).
  { apply compressionConfig_unmerged. simpl. intros H.
    repeat (destruct H as [H | H]; [discriminate |]). exact H. }
  assert (Hget : Js.get (JObj (compressionConfig options)) "cache" =
            match last_binding options "cache" with
            | Some v => v
            | None => JObj [("enabled", JBool true); ("cacheDir", JStr defaultCacheDir)]
            end).
  { unfold Js.get at 1. rewrite Hcache.
    destruct (last_binding options "cache"); reflexivity. }
  unfold cacheEnabled, cacheDirName, cfg. rewrite Hget.
  destruct (last_binding options "cache") as [v |].
  - split; [reflexivity |]. split; [discriminate |].
    intros v' Hv. injection Hv as <-.
    destruct (Js.get v "cacheDir") as [| | x | z | d | | l | l]; try reflexivity.
    simpl. destruct (String.eqb d EmptyString); reflexivity.
  - split; [reflexivity |]. split; [reflexivity | discriminate].
Qed.

(** ** The hook [astro:config:done] *)



(** ** The format resolver *)

Lemma lower_ascii_idempotent (c : ascii) :
  Str.lower_ascii (Str.lower_ascii c) = Str.lower_ascii c.
Proof. destruct c as [[] [] [] [] [] [] [] []]; reflexivity. Qed.

Lemma toLowerCase_idempotent (s : string) :
  Str.toLowerCase (Str.toLowerCase s) = Str.toLowerCase s.
Proof.
  induction s as [| c s IH]; simpl; [reflexivity |].
  rewrite lower_ascii_idempotent, IH. reflexivity.
Qed.

(** Upper and lower case are the same to the resolver and to the patterns
    of [processFile]: a path and its lower-case form get the same format
    and settings and the same branch, and so do two paths that differ in
    case only. *)
Theorem resolution_ignores_case (cfg : props) (p : string) :
  getUsedConfig cfg (Str.toLowerCase p) = getUsedConfig cfg p /\
  branch_of (Str.toLowerCase p) = branch_of p /\
  (forall q, Str.toLowerCase q = Str.toLowerCase p ->
     getUsedConfig cfg q = getUsedConfig cfg p /\ branch_of q = branch_of p).
Proof.
  split; [| split].
  - unfold getUsedConfig. rewrite toLowerCase_idempotent. reflexivity.
  - unfold branch_of, has_extension. rewrite toLowerCase_idempotent. reflexivity.
  - intros q Hq. unfold getUsedConfig, branch_of, has_extension. rewrite Hq. auto.
Qed.

Lemma alias_table (a k : string) :
  getAliasForExtension a = Some k ->
  (a = "mjs" /\ k = "js") \/ (a = "cjs" /\ k = "js") \/
  (a = "jpg" /\ k = "jpeg") \/ (a = "tif" /\ k = "tiff").
Proof.
  unfold getAliasForExtension, configAliases, getAliasForExtension_in. simpl existsb.
  destruct (String.eqb a "mjs") eqn:E1.
  { apply String.eqb_eq in E1. simpl. intros H. injection H as <-. auto. }
  destruct (String.eqb a "cjs") eqn:E2.
  { apply String.eqb_eq in E2. simpl. intros H. injection H as <-. auto. }
  destruct (String.eqb a "jpg") eqn:E3.
  { apply String.eqb_eq in E3. simpl. intros H. injection H as <-. auto. }
  destruct (String.eqb a "tif") eqn:E4.
  { apply String.eqb_eq in E4. simpl. intros H. injection H as <-. auto 6. }
  simpl. discriminate.
Qed.

(** An alias resolves to the canonical format: a path ending in a dot and
    an alias (mjs, cjs, jpg, tif), when the merged options have no key of
    that name, gets the format and the settings of the key the alias
    stands for, the very value a path ending in that key gets. *)
Theorem alias_resolves_to_canonical (options : props) (p q a k : string)
    (Halias : getAliasForExtension a = Some k)
    (Hown : in_config (compressionConfig options) a = false)
    (Hp : Str.endsWith (Str.toLowerCase p) ("." ++ a) = true)
    (Hq : Str.endsWith (Str.toLowerCase q) ("." ++ k) = true) :
  getUsedConfig (compressionConfig options) p =
    JObj [("config", config_at (compressionConfig options) k); ("format", JStr k)] /\
  getUsedConfig (compressionConfig options) q = getUsedConfig (compressionConfig options) p.
Proof.
  assert (Hfacts : dot_free a = true /\ dot_free k = true /\ k <> EmptyString /\
                   is_Some (Js.get_prop defaultConfig k)).
  { destruct (alias_table a k Halias) as [[-> ->] | [[-> ->] | [[-> ->] | [-> ->]]]];
      repeat split; try reflexivity; try discriminate; vm_compute; eauto. }
  destruct Hfacts as (Ha & Hk & Hne & Hdef).
  assert (Hfirst : getUsedConfig (compressionConfig options) p =
            JObj [("config", config_at (compressionConfig options) k); ("format", JStr k)]).
  { unfold getUsedConfig. rewrite (extension_of_matching_path p a Ha Hp). simpl default.
    rewrite Hown, Halias. apply String.eqb_neq in Hne. rewrite Hne. reflexivity. }
  split; [exact Hfirst |]. rewrite Hfirst.
  unfold getUsedConfig. rewrite (extension_of_matching_path q k Hk Hq). simpl default.
  apply (compressionConfig_has_default options) in Hdef.
  unfold in_config. rewrite bool_decide_eq_true_2 by exact Hdef. simpl.
  apply String.eqb_neq in Hne. rewrite Hne. reflexivity.
Qed.

(** A photo named with jpg and one named with jpeg, under the default
    options. *)
Lemma alias_resolves_to_canonical_witness :
  getUsedConfig (compressionConfig []) "/site/dist/Photo.JPG" =
    JObj [("config", config_at (compressionConfig []) "jpeg"); ("format", JStr "jpeg")] /\
  getUsedConfig (compressionConfig []) "/site/dist/photo.jpeg"
    = getUsedConfig (compressionConfig []) "/site/dist/Photo.JPG".
Proof.
  apply (alias_resolves_to_canonical [] "/site/dist/Photo.JPG" "/site/dist/photo.jpeg"
           "jpg" "jpeg"); vm_compute; reflexivity.
Defined.

(** Settings without a compressor: a file ending in .gif, .jxl or .cjs
    resolves to a format (the defaults have gif and jxl settings, and cjs
    is an alias of js), but no pattern of [processFile] matches it, so it
    is left as it is with the reason Skipped, whatever the libraries
    are. *)
Theorem resolved_but_never_compressed (lib : Adapters) (options : props)
    (st : State) (p e : string) (b : Buffer)
    (He : In e ["gif"; "jxl"; "cjs"])
    (Hp : Str.endsWith (Str.toLowerCase p) ("." ++ e) = true)
    (Hb : files (world st) !! p = Some b) :
  getUsedConfig (compressionConfig options) p <> JNull /\
  branch_of p = BOther /\
  processFile lib options st p =
    Ok (st, mkFileResult (RFailed KnowFailReason.Skipped) (Fs.size b) 0
              (getUsedConfig (compressionConfig options) p)).
Proof.
  assert (Hfacts : dot_free e = true /\ e <> EmptyString /\
            (is_Some (Js.get_prop defaultConfig e) \/ is_Some (getAliasForExtension e)) /\
            existsb (String.eqb e)
              ["jpg"; "jpeg"; "png"; "webp"; "tif"; "tiff"; "avif"; "heif"; "html"; "htm";
               "js"; "mjs"; "svg"; "css"; "scss"; "sass"; "less"] = false).
  { simpl in He. destruct He as [<- | [<- | [<- | []]]];
      (split; [reflexivity |]); (split; [discriminate |]); (split; [| reflexivity]).
    - left. vm_compute. eauto.
    - left. vm_compute. eauto.
    - right. vm_compute. eauto. }
  destruct Hfacts as (Hfree & Hne & Hkey & Hnot).
  assert (Hbr : branch_of p = BOther).
  { assert (Hno : forall x, dot_free x = true -> String.eqb e x = false ->
              Str.endsWith (Str.toLowerCase p) ("." ++ x) = false).
    { intros x Hx Hex.
      destruct (Str.endsWith (Str.toLowerCase p) ("." ++ x)) eqn:Hends; [| reflexivity].
      pose proof (extension_of_matching_path p e Hfree Hp) as H1.
      pose proof (extension_of_matching_path p x Hx Hends) as H2.
      rewrite H1 in H2. injection H2 as ->. rewrite String.eqb_refl in Hex. discriminate. }
    simpl in Hnot. repeat (apply orb_false_iff in Hnot as [? Hnot]).
    unfold branch_of, has_extension. simpl existsb.
    rewrite !Hno by (reflexivity || assumption). reflexivity. }
  split; [apply (matching_path_resolves options p e Hfree Hne Hp Hkey) |].
  split; [exact Hbr |].
  apply (processFile_unmatched lib options st p b Hb Hbr).
Qed.

(** An animation next to the style sheets of [NonAscii]. *)
Lemma resolved_but_never_compressed_witness :
  let st := initialState (Fs.writeFileSync NonAscii.disk "/site/dist/anim.GIF" "GIF89a") in
  getUsedConfig (compressionConfig []) "/site/dist/anim.GIF" <> JNull /\
  branch_of "/site/dist/anim.GIF" = BOther /\
  processFile Demo.lib [] st "/site/dist/anim.GIF" =
    Ok (st, mkFileResult (RFailed KnowFailReason.Skipped) (Fs.size "GIF89a") 0
              (getUsedConfig (compressionConfig []) "/site/dist/anim.GIF")).
Proof.
  apply (resolved_but_never_compressed Demo.lib []
           (initialState (Fs.writeFileSync NonAscii.disk "/site/dist/anim.GIF" "GIF89a"))
           "/site/dist/anim.GIF" "gif" "GIF89a").
  - left. reflexivity.
  - vm_compute. reflexivity.
  - vm_compute. reflexivity.
Defined.

(** ** [processFile] *)

Section ProcessFileResults.

Variable lib : Adapters.
Variable options : props.

Local Abbreviation processFile := (processFile lib options).
Local Abbreviation cfg := (cfg options).

(** Every way [processFile] can return. *)
Lemma processFile_cases (st st' : State) (p : string) (r : FileResult) :
  processFile st p = Ok (st', r) ->
  exists b,
    files (world st) !! p = Some b /\
    originalSize r = Fs.size b /\
    usedConfig r = getUsedConfig cfg p /\
    ((exists reason, outcome r = RFailed reason /\ st' = st) \/
     (exists c, outcome r = RProcessed /\ content_length c < Fs.size b /\
        st' = accepted_state st p (Fs.size b) c /\
        newSize r = Fs.size (content_bytes c))).
Proof.
  unfold processFile, Fs.readFileSync.
  destruct (files (world st) !! p) as [b |] eqn:Hb; simpl; [| discriminate].
  intros H. injection H as H. exists b. split; [reflexivity |].
  assert (Hres : forall c x, x = handleCompressedResult st p (Fs.size b) c ->
    (fst (fst x), mkFileResult (snd x) (Fs.size b) (snd (fst x)) (getUsedConfig cfg p))
      = (st', r) ->
    originalSize r = Fs.size b /\
    usedConfig r = getUsedConfig cfg p /\
    ((exists reason, outcome r = RFailed reason /\ st' = st) \/
     (exists c, outcome r = RProcessed /\ content_length c < Fs.size b /\
        st' = accepted_state st p (Fs.size b) c /\
        newSize r = Fs.size (content_bytes c)))).
  { intros c x -> Hx. injection Hx as <- <-. simpl.
    split; [reflexivity |]. split; [reflexivity |].
    destruct (Z.lt_ge_cases (content_length c) (Fs.size b)) as [Hlt | Hge].
    - right. exists c. rewrite (handleCompressedResult_accepted st p _ c Hlt). simpl. auto.
    - left. rewrite (handleCompressedResult_rejected st p _ c Hge). simpl. eauto. }
  unfold process_body, try_catch in H. cbv beta zeta in H.
  repeat match type of H with
         | context [match ?x with _ => _ end] =>
             lazymatch x with
             | context [match _ with _ => _ end] => fail
             | _ => destruct x eqn:?
             end
         end;
    try (eapply Hres in H; [exact H | reflexivity]);
    injection H as <- <-; simpl; (split; [reflexivity |]); (split; [reflexivity |]);
      left; eexists; split; reflexivity.
Qed.

(** What [processFile] touches. It writes at most the file it is given: the
    other files, the directories, the clock and the cache manager are as
    they were, and so are the counts of processed, skipped and cached
    files. When it reports the file as processed, the file holds a result
    of [newSize] bytes and the two size totals have advanced by
    [originalSize] and [newSize]; when it does not, nothing at all has
    changed. *)
Theorem processFile_frame (st st' : State) (p : string) (r : FileResult)
    (Hrun : processFile st p = Ok (st', r)) :
  (forall q, q <> p -> files (world st') !! q = files (world st) !! q) /\
  dirs (world st') = dirs (world st) /\
  clock (world st') = clock (world st) /\
  cacheManager st' = cacheManager st /\
  processedFiles (totals st') = processedFiles (totals st) /\
  skippedFiles (totals st') = skippedFiles (totals st) /\
  cacheHits (totals st') = cacheHits (totals st) /\
  (Fs.size <$> files (world st) !! p) = Some (originalSize r) /\
  if processed r then
    (Fs.size <$> files (world st') !! p) = Some (newSize r) /\
    originalSizeTotal (totals st') = originalSizeTotal (totals st) + originalSize r /\
    newSizeTotal (totals st') = newSizeTotal (totals st) + newSize r
  else st' = st.
Proof.
  destruct (processFile_cases st st' p r Hrun)
    as (b & Hb & Ho & _ & [(reason & Hr & ->) | (c & Hr & Hlt & -> & Hn)]);
    unfold processed; rewrite Hr, Hb, Ho.
  - repeat split; reflexivity.
  - simpl. rewrite lookup_insert_eq, Hn. simpl.
    split; [intros q Hq; apply lookup_insert_ne; congruence |].
    repeat split; reflexivity.
Qed.

End ProcessFileResults.

(** The style sheet of [NonAscii], processed. *)
Lemma processFile_frame_witness :
  let st := initialState NonAscii.disk in
  let st' := accepted_state st "/site/dist/a.css" 14 (CString NonAscii.text) in
  let r := mkFileResult RProcessed 14 14 (JObj [("config", JObj []); ("format", JStr "css")]) in
  (forall q, q <> "/site/dist/a.css" -> files (world st') !! q = files (world st) !! q) /\
  dirs (world st') = dirs (world st) /\
  clock (world st') = clock (world st) /\
  cacheManager st' = cacheManager st /\
  processedFiles (totals st') = processedFiles (totals st) /\
  skippedFiles (totals st') = skippedFiles (totals st) /\
  cacheHits (totals st') = cacheHits (totals st) /\
  (Fs.size <$> files (world st) !! "/site/dist/a.css") = Some (originalSize r) /\
  if processed r then
    (Fs.size <$> files (world st') !! "/site/dist/a.css") = Some (newSize r) /\
    originalSizeTotal (totals st') = originalSizeTotal (totals st) + originalSize r /\
    newSizeTotal (totals st') = newSizeTotal (totals st) + newSize r
  else st' = st.
Proof.
  apply (processFile_frame NonAscii.lib [] (initialState NonAscii.disk)).
  vm_compute. reflexivity.
Defined.

(** ** The size test of [handleCompressedResult] *)

Lemma encode_code_point_length (c : N) :
  (1 <= String.length (Text.encode_code_point c))%nat /\
  ((65536 <= c)%N -> String.length (Text.encode_code_point c) = 4%nat).
Proof.
  unfold Text.encode_code_point.
  destruct (c <? 128)%N eqn:H1.
  { apply N.ltb_lt in H1. simpl. split; [lia | intros; lia]. }
  destruct (c <? 2048)%N eqn:H2.
  { apply N.ltb_lt in H2. simpl. split; [lia | intros; lia]. }
  destruct (c <? 65536)%N eqn:H3.
  { apply N.ltb_lt in H3. simpl. split; [lia | intros; lia]. }
  simpl. split; [lia | reflexivity].
Qed.

(** A text never takes fewer bytes than it has code units. *)
Lemma utf8_encode_length (s : jsstring) :
  (List.length s <= String.length (Text.utf8_encode s))%nat.
Proof.
  assert (H : forall n s, (List.length s <= n)%nat ->
            (List.length s <= String.length (Text.utf8_encode s))%nat).
  { clear s. induction n as [| n IH]; intros s Hn.
    - destruct s; simpl in *; lia.
    - destruct s as [| u r]; [simpl; lia |].
      simpl List.length in *. cbn [Text.utf8_encode].
      pose proof (encode_code_point_length 65533) as [Hrep _].
      pose proof (encode_code_point_length u) as [Hu _].
      destruct (Text.is_high_surrogate u).
      + destruct r as [| v r'].
        * simpl List.length. lia.
        * destruct (Text.is_low_surrogate v).
          -- rewrite length_app.
             pose proof (encode_code_point_length
                           (65536 + (u - 55296) * 1024 + (v - 56320))%N) as [_ H4].
             rewrite H4 by lia.
             assert (List.length r' <= n)%nat as Hr by (simpl in Hn; lia).
             specialize (IH r' Hr). simpl List.length. lia.
          -- rewrite length_app.
             assert (List.length (v :: r') <= n)%nat as Hr by lia.
             specialize (IH (v :: r') Hr). lia.
      + assert (List.length r <= n)%nat as Hr by lia. specialize (IH r Hr).
        destruct (Text.is_low_surrogate u); rewrite length_app; lia. }
  apply (H (List.length s) s). lia.
Qed.

Lemma content_length_le_bytes (c : Content) :
  content_length c <= Fs.size (content_bytes c).
Proof.
  destruct c as [b | s]; unfold Fs.size; simpl; [lia |].
  pose proof (utf8_encode_length s). lia.
Qed.

(** The decision of [handleCompressedResult], read in bytes. The length
    it compares never exceeds the number of bytes the result takes on
    disk, so a result strictly smaller than the original in bytes is
    always accepted: the file is overwritten, and [newSize] is the byte
    size of what was written. The not-smaller rejection is returned
    exactly when the compared length is not below the original size, and
    then the result is indeed not smaller in bytes, nothing is written and
    [newSize] is 0. *)
Theorem smaller_in_bytes_is_accepted (st : State) (p : string) (n : Z) (c : Content) :
  content_length c <= Fs.size (content_bytes c) /\
  (Fs.size (content_bytes c) < n ->
     handleCompressedResult st p n c =
       (accepted_state st p n c, Fs.size (content_bytes c), RProcessed)) /\
  (snd (handleCompressedResult st p n c) = RFailed KnowFailReason.BiggerSize <->
     n <= content_length c) /\
  (snd (handleCompressedResult st p n c) <> RProcessed ->
     n <= Fs.size (content_bytes c) /\ fst (handleCompressedResult st p n c) = (st, 0)).
Proof.
  pose proof (content_length_le_bytes c) as Hle.
  split; [exact Hle |]. split; [| split].
  - intros Hlt. apply handleCompressedResult_accepted. lia.
  - split.
    + intros H. destruct (Z.lt_ge_cases (content_length c) n) as [Hlt | Hge]; [| exact Hge].
      rewrite (handleCompressedResult_accepted st p n c Hlt) in H. discriminate.
    + intros Hge. rewrite (handleCompressedResult_rejected st p n c Hge). reflexivity.
  - intros H. destruct (Z.lt_ge_cases (content_length c) n) as [Hlt | Hge].
    + rewrite (handleCompressedResult_accepted st p n c Hlt) in H. contradiction H. reflexivity.
    + rewrite (handleCompressedResult_rejected st p n c Hge). simpl. split; [lia | reflexivity].
Qed.

(** ** Exceptions of the compression libraries *)

(** No exception of a compression library leaves [processFile]. When
    every call into the libraries throws, [processFile] still returns for
    every file that exists, with the state untouched: the JavaScript and
    SVG branches report their own failure text and the original size as
    the new size, the other branches report the text of the error with a
    new size of 0, and a path without a compressor is Skipped. *)
Theorem failing_compressors_are_contained (lib : Adapters) (options : props)
    (st : State) (p : string) (b : Buffer)
    (Hlib : always_throws lib)
    (Hb : files (world st) !! p = Some b) :
  exists reason,
    processFile lib options st p =
      Ok (st, mkFileResult (RFailed reason) (Fs.size b)
                (if caught_inside p then Fs.size b else 0)
                (getUsedConfig (compressionConfig options) p)) /\
    match branch_of p with
    | BImage => sharp_metadata lib b = Threw reason
    | BHtml => html_minify lib (Js.get (JObj (compressionConfig options)) "html") b = Threw reason
    | BJs => reason = "javascript minification failed"
    | BSvg => reason = "svg optimization failed"
    | BCss => csso_minify lib (Js.get (JObj (compressionConfig options)) "css") b = Threw reason
    | BOther => reason = KnowFailReason.Skipped
    end.
Proof.
  destruct Hlib as (Hmeta & _ & Hhtml & Hjs & Hsvg & Hcss).
  unfold processFile, Fs.readFileSync, caught_inside. rewrite Hb. simpl.
  unfold process_body, try_catch, cfg. cbv beta zeta.
  destruct (branch_of p).
  - destruct (Hmeta b) as [e He]. rewrite He. exists e. split; reflexivity || exact He.
  - destruct (Hhtml (Js.get (JObj (compressionConfig options)) "html") b) as [e He].
    rewrite He. exists e. split; reflexivity || exact He.
  - destruct (Hjs (Js.get (JObj (compressionConfig options)) "js") b) as [e He].
    rewrite He. eexists. split; reflexivity.
  - match goal with
    | |- context [svgo_optimize lib ?c b] => destruct (Hsvg c b) as [e He]
    end.
    rewrite He. eexists. split; reflexivity.
  - destruct (Hcss (Js.get (JObj (compressionConfig options)) "css") b) as [e He].
    rewrite He. exists e. split; reflexivity || exact He.
  - eexists. split; reflexivity.
Qed.

(** A truncated drawing, with libraries that reject every input. *)
Lemma failing_compressors_are_contained_witness :
  exists reason,
    processFile Broken.lib [] (initialState Broken.disk) "/site/dist/a.svg" =
      Ok (initialState Broken.disk,
          mkFileResult (RFailed reason) (Fs.size "<svg")
            (if caught_inside "/site/dist/a.svg" then Fs.size "<svg" else 0)
            (getUsedConfig (compressionConfig []) "/site/dist/a.svg")) /\
    match branch_of "/site/dist/a.svg" with
    | BImage => sharp_metadata Broken.lib "<svg" = Threw reason
    | BHtml => html_minify Broken.lib (Js.get (JObj (compressionConfig [])) "html") "<svg"
               = Threw reason
    | BJs => reason = "javascript minification failed"
    | BSvg => reason = "svg optimization failed"
    | BCss => csso_minify Broken.lib (Js.get (JObj (compressionConfig [])) "css") "<svg"
              = Threw reason
    | BOther => reason = KnowFailReason.Skipped
    end.
Proof.
  apply (failing_compressors_are_contained Broken.lib [] (initialState Broken.disk)
           "/site/dist/a.svg" "<svg").
  - repeat split; intros; eexists; reflexivity.
  - vm_compute. reflexivity.
Defined.

(** ** The loop of [astro:build:done] *)

Lemma getCachedFile_keeps (w : World) (m : CompressionCacheManagerImpl)
    (p h : string) (s : UsedFormatConfig) :
  cacheDir (snd (fst (getCachedFile w m p h s))) = cacheDir m /\
  dirs (fst (fst (getCachedFile w m p h s))) = dirs w.
Proof.
  unfold getCachedFile.
  destruct (entries (manifest m) !! p) as [e |] eqn:He; simpl; [| auto].
  destruct (negb (String.eqb (sourceHash e) h)).
  { rewrite (invalidate_present w m p e He). auto. }
  destruct (settings_mismatch (settings e) s).
  { rewrite (invalidate_present w m p e He). auto. }
  destruct (Fs.exists_path w (compressedPath e)); auto.
Qed.

Section Hooks.

Variable JSON_parse : Buffer -> option CompressionCache.
Variable JSON_stringify : CompressionCache -> Buffer.
Variable sha256 : Buffer -> string.
Variable lib : Adapters.
Variable options : props.

Local Abbreviation handleCandidate := (handleCandidate sha256 lib options).
Local Abbreviation handleCandidates := (handleCandidates sha256 lib options).
Local Abbreviation buildDone := (buildDone JSON_stringify sha256 lib options).
Local Abbreviation configDone := (configDone JSON_parse JSON_stringify options).
Local Abbreviation runBuild := (runBuild JSON_parse JSON_stringify sha256 lib options).
Local Abbreviation cacheEnabled := (cacheEnabled options).
Local Abbreviation cacheDirName := (cacheDirName options).

Lemma processFile_keeps (st st' : State) (p : string) (r : FileResult) :
  processFile lib options st p = Ok (st', r) ->
  cacheManager st' = cacheManager st /\
  dirs (world st') = dirs (world st) /\
  processedFiles (totals st') = processedFiles (totals st) /\
  skippedFiles (totals st') = skippedFiles (totals st) /\
  cacheHits (totals st') = cacheHits (totals st) /\
  is_Some (files (world st') !! p).
Proof.
  intros H.
  destruct (processFile_cases lib options st st' p r H)
    as (b & Hb & _ & _ & [(reason & _ & ->) | (c & _ & _ & -> & _)]).
  - rewrite Hb. repeat split; eauto.
  - simpl. rewrite lookup_insert_eq. repeat split; eauto.
Qed.

(** One turn of the loop: the candidate is counted once, no directory is
    created, and the cache manager stays on its directory. *)
Lemma handleCandidate_step (st st' : State) (c : string) :
  handleCandidate st c = Ok st' ->
  processedFiles (totals st') + skippedFiles (totals st') + cacheHits (totals st')
    = processedFiles (totals st) + skippedFiles (totals st) + cacheHits (totals st) + 1 /\
  dirs (world st') = dirs (world st) /\
  (forall m, cacheManager st = Some m ->
     exists m', cacheManager st' = Some m' /\ cacheDir m' = cacheDir m).
Proof.
  unfold handleCandidate. destruct cacheEnabled.
  - unfold Fs.readFileSync at 1.
    destruct (files (world st) !! c) as [b |] eqn:Hb; simpl; [| discriminate].
    destruct (cacheManager st) as [m |] eqn:Hm; [| discriminate].
    destruct (getCachedFile_keeps (world st) m c (sha256 b)
                (getUsedConfig (cfg options) c)) as [Hdir Hdirs].
    destruct (getCachedFile (world st) m c (sha256 b) (getUsedConfig (cfg options) c))
      as [[w1 m1] o].
    simpl in Hdir, Hdirs. simpl.
    destruct o as [e |].
    + unfold Fs.readFileSync.
      destruct (files w1 !! compressedPath e); simpl; [| discriminate].
      intros H. injection H as <-. simpl.
      split; [lia |]. split; [exact Hdirs |].
      intros m0 Hm0. injection Hm0 as <-. eauto.
    + destruct (processFile lib options (mkState w1 (Some m1) (totals st)) c)
        as [[st1 r] | err] eqn:Hp; simpl; [| discriminate].
      apply processFile_keeps in Hp as (Hman & Hd & Hc1 & Hc2 & Hc3 & [x Hx]).
      simpl in Hman, Hd, Hc1, Hc2, Hc3.
      assert (Hstore : forall st2,
                cache_and_count st1 c (sha256 b) b r = Ok st2 ->
                processedFiles (totals st2) + skippedFiles (totals st2) + cacheHits (totals st2)
                  = processedFiles (totals st) + skippedFiles (totals st)
                    + cacheHits (totals st) + 1 /\
                dirs (world st2) = dirs (world st) /\
                (forall m0, Some m = Some m0 ->
                   exists m', cacheManager st2 = Some m' /\ cacheDir m' = cacheDir m0)).
      { intros st2. unfold cache_and_count, Fs.readFileSync. rewrite Hx, Hman. simpl.
        intros H. injection H as <-. simpl.
        split; [lia |]. split; [congruence |].
        intros m0 Hm0. injection Hm0 as <-. eauto. }
      unfold after_process_cached.
      destruct (outcome r) as [| reason]; [apply Hstore |].
      destruct (String.eqb reason KnowFailReason.BiggerSize); [apply Hstore |].
      intros H. injection H as <-. simpl.
      split; [lia |]. split; [congruence |].
      intros m0 Hm0. injection Hm0 as <-. eauto.
  - destruct (processFile lib options st c) as [[st1 r] | err] eqn:Hp; simpl; [| discriminate].
    apply processFile_keeps in Hp as (Hman & Hd & Hc1 & Hc2 & Hc3 & _).
    intros H. injection H as <-. unfold after_process_plain.
    destruct (processed r); simpl; (split; [lia |]); (split; [exact Hd |]);
      intros m Hm; rewrite Hman; eauto.
Qed.

Lemma handleCandidates_steps (candidates : list string) (st st' : State) :
  handleCandidates st candidates = Ok st' ->
  processedFiles (totals st') + skippedFiles (totals st') + cacheHits (totals st')
    = processedFiles (totals st) + skippedFiles (totals st) + cacheHits (totals st)
      + Z.of_nat (List.length candidates) /\
  dirs (world st') = dirs (world st) /\
  (forall m, cacheManager st = Some m ->
     exists m', cacheManager st' = Some m' /\ cacheDir m' = cacheDir m).
Proof.
  revert st. induction candidates as [| c l IH]; intros st; simpl.
  - intros H. injection H as <-. split; [lia |]. split; [reflexivity |]. eauto.
  - destruct (handleCandidate st c) as [st1 | err] eqn:Hc; simpl; [| discriminate].
    intros Hl. apply handleCandidate_step in Hc as (Hn1 & Hd1 & Hm1).
    apply IH in Hl as (Hn & Hd & Hm).
    split; [lia |]. split; [congruence |].
    intros m Hm0. destruct (Hm1 m Hm0) as (m1 & Hs1 & Hdir1).
    destruct (Hm m1 Hs1) as (m' & Hs' & Hdir'). exists m'. split; [exact Hs' | congruence].
Qed.

(** Every candidate of a loop that ends is counted exactly once, as
    processed, as skipped or as a cache hit: the three counters together
    advance by the number of candidates. *)
Theorem every_candidate_is_counted (candidates : list string) (st st' : State)
    (Hrun : handleCandidates st candidates = Ok st') :
  processedFiles (totals st') + skippedFiles (totals st') + cacheHits (totals st')
    = processedFiles (totals st) + skippedFiles (totals st) + cacheHits (totals st)
      + Z.of_nat (List.length candidates).
Proof. apply (handleCandidates_steps candidates st st' Hrun). Qed.



End Hooks.

(** The candidate of [TwoRuns], served from the cache. *)
Lemma every_candidate_is_counted_witness :
  exists st',
    handleCandidates Demo.hex_digest Demo.lib [] TwoRuns.loaded TwoRuns.candidates = Ok st' /\
    processedFiles (totals st') + skippedFiles (totals st') + cacheHits (totals st')
      = processedFiles (totals TwoRuns.loaded) + skippedFiles (totals TwoRuns.loaded)
        + cacheHits (totals TwoRuns.loaded) + Z.of_nat (List.length TwoRuns.candidates).
Proof.
  eexists. split.
  - vm_compute. reflexivity.
  - apply (every_candidate_is_counted Demo.hex_digest Demo.lib []).
    vm_compute. reflexivity.
Defined.


(** The style sheet of [TwoRuns], compressed by a first build whose
    output is then regenerated. *)
Lemma regenerated_candidate_has_valid_entry_witness :
  let st := mkState (Fs.mkdirSync TwoRuns.disk Demo.cacheRoot)
              (Some (newManager Demo.cacheRoot)) initialTotals in
  exists st' m',
    handleCandidate Demo.hex_digest Demo.lib [] st "/site/dist/a.css" = Ok st' /\
    cacheManager st' = Some m' /\
    valid_entry Demo.hex_digest []
      (Fs.writeFileSync (world st') "/site/dist/a.css" TwoRuns.original) m' "/site/dist/a.css".
Proof.
  eapply (regenerated_candidate_has_valid_entry Demo.hex_digest Demo.lib []
            (mkState (Fs.mkdirSync TwoRuns.disk Demo.cacheRoot)
               (Some (newManager Demo.cacheRoot)) initialTotals)
            _ (newManager Demo.cacheRoot) "/site/dist/a.css" TwoRuns.original _).
  - vm_compute. reflexivity.
  - reflexivity.
  - vm_compute. reflexivity.
  - vm_compute. reflexivity.
  - vm_compute. reflexivity.
  - reflexivity.
  - vm_compute. discriminate.
Defined.

(** ** The name of an artifact *)



(** ** A candidate the cache serves *)

(** A cache hit calls no compression library. For a candidate with a
    valid entry, the turn of the loop is the same whatever the libraries
    are: the candidate is overwritten with the bytes of the artifact, and
    the totals advance by the sizes the entry recorded. *)
Theorem cache_hit_calls_no_compressor (sha256 : Buffer -> string) (options : props)
    (st : State) (m : CompressionCacheManagerImpl) (p : string) (lib1 lib2 : Adapters)
    (Hen : cacheEnabled options = true)
    (Hm : cacheManager st = Some m)
    (Hval : valid_entry sha256 options (world st) m p) :
  handleCandidate sha256 lib1 options st p = handleCandidate sha256 lib2 options st p /\
  exists e a,
    entries (manifest m) !! p = Some e /\
    files (world st) !! compressedPath e = Some a /\
    handleCandidate sha256 lib1 options st p =
      Ok (mkState (Fs.writeFileSync (world st) p a) (Some m) (add_hit (totals st) e)).
Proof.
  destruct Hval as (b & e & a & Hb & He & Hh & Hs & Ha).
  pose proof (handleCandidate_hit sha256 lib1 options st m p b a e Hen Hm Hb He Hh Hs Ha) as H1.
  pose proof (handleCandidate_hit sha256 lib2 options st m p b a e Hen Hm Hb He Hh Hs Ha) as H2.
  split; [congruence |]. exists e, a. auto.
Qed.

(** The regenerated style sheet of [TwoRuns], with the working libraries
    and with libraries that reject every input. *)
Lemma cache_hit_calls_no_compressor_witness :
  handleCandidate Demo.hex_digest Demo.lib [] TwoRuns.loaded "/site/dist/a.css"
    = handleCandidate Demo.hex_digest Broken.lib [] TwoRuns.loaded "/site/dist/a.css" /\
  exists e a,
    entries (manifest TwoRuns.manager1) !! "/site/dist/a.css" = Some e /\
    files (world TwoRuns.loaded) !! compressedPath e = Some a /\
    handleCandidate Demo.hex_digest Demo.lib [] TwoRuns.loaded "/site/dist/a.css" =
      Ok (mkState (Fs.writeFileSync (world TwoRuns.loaded) "/site/dist/a.css" a)
            (Some TwoRuns.manager1) (add_hit (totals TwoRuns.loaded) e)).
Proof.
  apply (cache_hit_calls_no_compressor Demo.hex_digest [] TwoRuns.loaded TwoRuns.manager1
           "/site/dist/a.css" Demo.lib Broken.lib).
  - vm_compute. reflexivity.
  - reflexivity.
  - vm_compute. eexists _, _, _. repeat split; reflexivity.
Defined.
